(** * Stock-Gate: the RSP moving-average bot (src/main.py)

    A shallow embedding of the bot's Python code and the proofs of its
    specification.  Python floats are IEEE binary64 numbers and are modelled
    by Rocq's primitive floats, Python ints by [Z], exceptions by an explicit
    result type, and logger calls and calls to the outside world (HTTP, the
    spreadsheet, the clock) by a trace of events. *)

From Stdlib Require Import ZArith List Bool String Lia.
From Stdlib Require Import PrimFloat SpecFloat FloatOps.
From Stdlib Require Import Permutation Sorted OrderedTypeEx.
Import ListNotations.

Local Open Scope string_scope.
Local Open Scope list_scope.
Local Open Scope Z_scope.

(** Decimal literals such as [1.10] denote the nearest binary64 number, as
    they do in Python. *)
Set Warnings "-inexact-float".

(** ** Python values and exceptions *)

(** The exception classes the program can meet.  All derive from Python's
    [Exception] except [KeyboardInterrupt] and [SystemExit], which derive from
    [BaseException] only. *)
Inductive exn : Type :=
| ValueError
| ZeroDivisionError
| KeyError
| IndexError
| TypeError
| RuntimeError
| JSONDecodeError
| HTTPError
| ConnectionError
| SpreadsheetNotFound
| WorksheetNotFound
| APIError
| OverflowError
| OSError
| KeyboardInterrupt
| SystemExit.

(** [isinstance(e, Exception)]. *)
Definition is_Exception (e : exn) : bool :=
  match e with
  | KeyboardInterrupt | SystemExit => false
  | _ => true
  end.

Inductive result (A : Type) : Type :=
| Ok (a : A)
| Raise (e : exn).
Arguments Ok {A} a.
Arguments Raise {A} e.

(** A daily bar as the market-data API sends it: a JSON object with the keys
    [t] (an RFC 3339 timestamp string), [o], [h], [l], [c] (numbers) and [v]
    (an integer).  The program reads every key through [b.get(k)] or guards
    the access with [k in b], so each key may be absent: [None] is an absent
    key.  The price fields hold the binary64 value that [float(b[k])] gives. *)
Record bar : Type := mkBar {
  bar_t : option string;
  bar_o : option float;
  bar_h : option float;
  bar_l : option float;
  bar_c : option float;
  bar_v : option Z
}.

(** ** Configuration: the module-level constants read from the environment *)

Record config : Type := mkConfig {
  SHEET_NAME : string;
  DASHBOARD_TAB_NAME : string;
  TARGET_CELL : string;
  ALPACA_DATA_BASE_URL : string;
  ALPACA_SYMBOL : string;
  MA_WINDOW : Z;
  REFRESH_INTERVAL_SECONDS : Z
}.

Definition default_config : config :=
  {| SHEET_NAME := "Active-Investing";
     DASHBOARD_TAB_NAME := "Dashboard";
     TARGET_CELL := "T3";
     ALPACA_DATA_BASE_URL := "https://data.alpaca.markets";
     ALPACA_SYMBOL := "RSP";
     MA_WINDOW := 960;
     REFRESH_INTERVAL_SECONDS := 3600 |}.

(** ** The outside world

    What the environment, the market-data API and the spreadsheet service
    answer during one cycle. *)

(** The value of the key [bars] in the decoded response body. *)
Inductive bars_json : Type :=
| BarsNull
| BarsList (bars : list bar).

Record response : Type := mkResponse {
  status_code : Z;
  text : string;
  (** [resp.json()], a JSON object: its member [bars], when it has one. *)
  json : result (option bars_json)
}.

Record world : Type := mkWorld {
  env_GOOGLE_SERVICE_ACCOUNT_JSON : option string;
  (** [json.loads(raw_json)], [Credentials.from_service_account_info] and
      [gspread.authorize] *)
  gspread_authorize : result unit;
  (** [client.open(SHEET_NAME)] *)
  client_open : result unit;
  (** [sh.worksheet(DASHBOARD_TAB_NAME)] *)
  sh_worksheet : result unit;
  env_ALPACA_API_KEY_ID : option string;
  env_ALPACA_API_SECRET_KEY : option string;
  (** [requests.get(url, ...)] *)
  requests_get : result response;
  (** [ws.acell(TARGET_CELL).value] *)
  ws_acell : result (option string);
  (** [ws.update(TARGET_CELL, value)] *)
  ws_update : result unit;
  (** the sleep that follows the cycle, once [time.sleep] has accepted its
      length: what the operating system answers (OSError when it refuses
      the deadline, KeyboardInterrupt when a signal interrupts it) *)
  os_sleep : result unit
}.

(** ** Events: logger calls and calls to the outside world *)

Inductive level : Type := DEBUG | INFO | WARNING | ERROR.

(** One constructor per logger call of the program, with the call's
    arguments. *)
Inductive message : Type :=
| MsgInitializedClient
| MsgOpeningSpreadsheet (sheet : string)
| MsgUsingWorksheet (tab : string)
| MsgUpdating (tab cell value : string)
| MsgRequesting (limit : Z) (symbol url : string)
| MsgResponseStatus (status : Z)
| MsgErrorResponse (text : string)
| MsgReceived (n : Z) (symbol : string)
| MsgNoBarsReturned (symbol : string)
| MsgFirstBar (b : bar)
| MsgLastBar (b : bar)
| MsgLastCloses (symbol : string)
| MsgClose (b : bar)
| MsgOnlyCloses (available requested : Z)
| MsgComputedMA (window : Z) (symbol : string) (ma : float)
| MsgClassification (symbol : string) (last_price ma diff : float) (label : string)
| MsgCycleStart
| MsgSkipping (symbol : string)
| MsgLatestBar (t : option string) (close : float)
| MsgPrevious (tab cell : string) (previous : option string)
| MsgFinished (cell label : string) (diff : float)
| MsgBotStarting (sheet tab cell : string) (interval : Z)
| MsgUnexpected (e : exn)
| MsgSleeping (seconds : Z).

Inductive event : Type :=
| Log (lvl : level) (m : message)
| HttpGet (url : string) (limit : Z)
| SheetRead (cell : string)
| SheetUpdate (cell value : string)
| Sleep (seconds : Z).

(** ** The monad of the embedding: a trace of events and a result *)

Definition M (A : Type) : Type := (list event * result A)%type.

Definition ret {A : Type} (a : A) : M A := ([], Ok a).
Definition raise {A : Type} (e : exn) : M A := ([], Raise e).
Definition lift {A : Type} (r : result A) : M A := ([], r).
Definition emit (ev : event) : M unit := ([ev], Ok tt).

Definition bind {A B : Type} (m : M A) (k : A -> M B) : M B :=
  match m with
  | (tr, Ok a) => let (tr', r) := k a in (tr ++ tr', r)
  | (tr, Raise e) => (tr, Raise e)
  end.

Definition trace {A : Type} (m : M A) : list event := fst m.
Definition outcome {A : Type} (m : M A) : result A := snd m.

Notation "x <- m ;; k" := (bind m (fun x => k))
  (at level 61, m at next level, right associativity).
Notation "m ;;; k" := (bind m (fun _ => k))
  (at level 61, right associativity).

Definition logger (lvl : level) (m : message) : M unit := emit (Log lvl m).

(** [try: body / except Exception as e: handler e]. *)
Definition try_except {A : Type} (body : M A) (handler : exn -> M A) : M A :=
  match body with
  | (tr, Raise e) =>
      if is_Exception e then let (tr', r) := handler e in (tr ++ tr', r)
      else (tr, Raise e)
  | (tr, Ok a) => (tr, Ok a)
  end.

(** ** Python numerics *)

Module Py.

(** [float(z)] for an int: the nearest binary64 number, ties to even.
    CPython raises OverflowError when the int is beyond the binary64 range;
    the only ints the program converts are window lengths bounded by the
    length of a list, so that branch is out of reach and the conversion is
    total here. *)
Definition float_of_int (z : Z) : float :=
  SF2Prim (binary_normalize prec emax z 0 false).

(** [a / b] on floats raises on a zero divisor, of either sign. *)
Definition float_div (a b : float) : result float :=
  if PrimFloat.eqb b 0%float then Raise ZeroDivisionError
  else Ok (PrimFloat.div a b).

(** The value of [sum(xs)] for a list of floats: the int [0] it starts from
    when the list is empty, a float otherwise. *)
Inductive sum_value : Type :=
| IntZero
| FloatSum (f : float).

(** [sum] adds left to right, starting from the int 0.  (CPython 3.12 and
    later compensate the rounding errors of the partial sums; nothing below
    depends on which of the two sums is used.) *)
Definition sum (xs : list float) : sum_value :=
  match xs with
  | [] => IntZero
  | _ :: _ => FloatSum (fold_left PrimFloat.add xs 0%float)
  end.

(** [s / w] for [s] a value of [sum] and [w] an int.  The divisor is
    converted to a float and tested against zero, which it is exactly when
    the int is 0; [0 / w] on ints is a zero with the sign of [w]. *)
Definition truediv (s : sum_value) (w : Z) : result float :=
  if w =? 0 then Raise ZeroDivisionError
  else match s with
       | IntZero => Ok (if w <? 0 then (-0)%float else 0%float)
       | FloatSum f => Ok (PrimFloat.div f (float_of_int w))
       end.

(** [len(xs)]. *)
Definition len {A : Type} (xs : list A) : Z := Z.of_nat (List.length xs).

(** The slice [xs[start:]]: a negative [start] counts from the end, and an
    index outside the list is clamped. *)
Definition slice_from {A : Type} (xs : list A) (start : Z) : list A :=
  let n := len xs in
  let s := if start <? 0 then Z.max 0 (start + n) else Z.min start n in
  skipn (Z.to_nat s) xs.

(** [xs[-1]]. *)
Definition last {A : Type} (xs : list A) : result A :=
  match rev xs with
  | [] => Raise IndexError
  | x :: _ => Ok x
  end.

(** [not s] for an optional string: [None] and the empty string are falsy. *)
Definition falsy (s : option string) : bool :=
  match s with
  | None => true
  | Some s' => (s' =? "")%string
  end.

(** [xs[0]]. *)
Definition first {A : Type} (xs : list A) : result A :=
  match xs with
  | [] => Raise IndexError
  | x :: _ => Ok x
  end.

(** [a < b] on sort keys [b.get("t")]: strings compare lexicographically;
    [None] is not ordered, with a string or with itself. *)
Definition lt_key (a b : option string) : result bool :=
  match a, b with
  | Some x, Some y => Ok (String.ltb x y)
  | _, _ => Raise TypeError
  end.

(** [sorted(xs, key=key)].  Python's sort is stable and compares keys with
    [<] only; an insertion sort that puts each element, taken from left to
    right, before the first element with a strictly greater key gives the
    same list.  Any sort compares every element of a list of two or more, so
    a key that cannot be compared raises TypeError there, and a list of at
    most one element is returned without a comparison. *)
Fixpoint insert {A : Type} (key : A -> option string) (x : A) (xs : list A)
  : result (list A) :=
  match xs with
  | [] => Ok [x]
  | y :: ys =>
      match lt_key (key x) (key y) with
      | Raise e => Raise e
      | Ok true => Ok (x :: y :: ys)
      | Ok false =>
          match insert key x ys with
          | Raise e => Raise e
          | Ok r => Ok (y :: r)
          end
      end
  end.

Definition sorted {A : Type} (key : A -> option string) (xs : list A)
  : result (list A) :=
  fold_left (fun acc x =>
               match acc with
               | Raise e => Raise e
               | Ok s => insert key x s
               end) xs (Ok []).

End Py.

(** ** Core logic *)

(** [closes = [float(b["c"]) for b in bars if "c" in b]], for closes that
    are numbers within the binary64 range, as [bar_c] has them: a close
    that is present but null, not numeric or beyond that range, on which
    [float] raises, is not a value of the model. *)
Fixpoint closes_of (bars : list bar) : list float :=
  match bars with
  | [] => []
  | b :: bars' =>
      match bar_c b with
      | Some x => x :: closes_of bars'
      | None => closes_of bars'
      end
  end.

Definition compute_moving_average (cfg : config) (bars : list bar) (window : Z)
  : M float :=
  match bars with
  | [] => raise ValueError
  | _ :: _ =>
      let closes := closes_of bars in
      window <- (if Py.len closes <? window
                 then logger WARNING (MsgOnlyCloses (Py.len closes) window) ;;;
                      ret (Py.len closes)
                 else ret window) ;;
      let relevant := Py.slice_from closes (- window) in
      ma_value <- lift (Py.truediv (Py.sum relevant) window) ;;
      logger INFO (MsgComputedMA window (ALPACA_SYMBOL cfg) ma_value) ;;;
      ret ma_value
  end.

Definition classify_trend (cfg : config) (last_price ma_value : float)
  : M (string * float) :=
  q <- lift (Py.float_div (last_price - ma_value)%float ma_value) ;;
  let diff_pct := (q * 100)%float in
  let label :=
    if (ma_value * 1.10 <? last_price)%float then "WEAK"
    else if (ma_value <=? last_price)%float then "MODERATE"
    else "STRONG" in
  logger INFO (MsgClassification (ALPACA_SYMBOL cfg) last_price ma_value
                 diff_pct label) ;;;
  ret (label, diff_pct).

(** ** Google Sheets helpers *)

Definition get_gspread_client (w : world) : M unit :=
  if Py.falsy (env_GOOGLE_SERVICE_ACCOUNT_JSON w) then raise RuntimeError
  else
    lift (gspread_authorize w) ;;;
    logger DEBUG MsgInitializedClient ;;;
    ret tt.

Definition get_dashboard_worksheet (cfg : config) (w : world) : M unit :=
  logger DEBUG (MsgOpeningSpreadsheet (SHEET_NAME cfg)) ;;;
  lift (client_open w) ;;;
  lift (sh_worksheet w) ;;;
  logger DEBUG (MsgUsingWorksheet (DASHBOARD_TAB_NAME cfg)) ;;;
  ret tt.

Definition update_dashboard_cell (cfg : config) (w : world) (value : string)
  : M unit :=
  logger INFO (MsgUpdating (DASHBOARD_TAB_NAME cfg) (TARGET_CELL cfg) value) ;;;
  emit (SheetUpdate (TARGET_CELL cfg) value) ;;;
  lift (ws_update w).

(** ** Alpaca market-data helpers *)

(** [resp.raise_for_status()]. *)
Definition raise_for_status (resp : response) : result unit :=
  if (400 <=? status_code resp) && (status_code resp <? 600)
  then Raise HTTPError else Ok tt.

(** [for b in bs: logger.debug("  t=%s c=%.4f", ...)]. *)
Fixpoint log_closes (bs : list bar) : M unit :=
  match bs with
  | [] => ret tt
  | b :: bs' => logger DEBUG (MsgClose b) ;;; log_closes bs'
  end.

Definition fetch_rsp_daily_bars (cfg : config) (w : world)
    (symbol : string) (limit : Z) : M (list bar) :=
  if Py.falsy (env_ALPACA_API_KEY_ID w) || Py.falsy (env_ALPACA_API_SECRET_KEY w)
  then raise RuntimeError
  else
    let url := (ALPACA_DATA_BASE_URL cfg ++ "/v2/stocks/" ++ symbol ++ "/bars")%string in
    logger INFO (MsgRequesting limit symbol url) ;;;
    emit (HttpGet url limit) ;;;
    resp <- lift (requests_get w) ;;
    logger DEBUG (MsgResponseStatus (status_code resp)) ;;;
    try_except (lift (raise_for_status resp))
      (fun e => logger ERROR (MsgErrorResponse (text resp)) ;;; raise e) ;;;
    data <- lift (json resp) ;;
    (* bars = data.get("bars", []); len(bars) is evaluated for the log call *)
    bars <- match data with
            | None => ret []
            | Some (BarsList bs) => ret bs
            | Some BarsNull => raise TypeError
            end ;;
    logger INFO (MsgReceived (Py.len bars) symbol) ;;;
    match bars with
    | [] => logger WARNING (MsgNoBarsReturned symbol) ;;; ret []
    | _ :: _ =>
        bars <- lift (Py.sorted bar_t bars) ;;
        first_bar <- lift (Py.first bars) ;;
        last_bar <- lift (Py.last bars) ;;
        logger DEBUG (MsgFirstBar first_bar) ;;;
        logger DEBUG (MsgLastBar last_bar) ;;;
        logger DEBUG (MsgLastCloses symbol) ;;;
        log_closes (Py.slice_from bars (-5)) ;;;
        ret bars
    end.

(** ** One cycle and the scheduler loop *)

Definition run_once (cfg : config) (w : world) : M unit :=
  logger INFO MsgCycleStart ;;;
  get_gspread_client w ;;;
  get_dashboard_worksheet cfg w ;;;
  bars <- fetch_rsp_daily_bars cfg w (ALPACA_SYMBOL cfg) (MA_WINDOW cfg) ;;
  match bars with
  | [] => logger ERROR (MsgSkipping (ALPACA_SYMBOL cfg)) ;;; ret tt
  | _ :: _ =>
      ma_value <- compute_moving_average cfg bars (MA_WINDOW cfg) ;;
      last_bar <- lift (Py.last bars) ;;
      last_price <- match bar_c last_bar with
                    | Some x => ret x
                    | None => raise KeyError
                    end ;;
      let last_time := bar_t last_bar in
      logger INFO (MsgLatestBar last_time last_price) ;;;
      r <- classify_trend cfg last_price ma_value ;;
      let (label, diff_pct) := r : string * float in
      previous_value <- try_except
                          (emit (SheetRead (TARGET_CELL cfg)) ;;; lift (ws_acell w))
                          (fun _ => ret None) ;;
      logger INFO (MsgPrevious (DASHBOARD_TAB_NAME cfg) (TARGET_CELL cfg)
                     previous_value) ;;;
      update_dashboard_cell cfg w label ;;;
      logger INFO (MsgFinished (TARGET_CELL cfg) label diff_pct) ;;;
      ret tt
  end.

(** The greatest number of seconds whose nanoseconds fit the signed 64-bit
    integer to which [time.sleep] converts its argument: 9223372036. *)
Definition PyTime_MAX_SECONDS : Z := (2 ^ 63 - 1) / 10 ^ 9.

(** What [time.sleep(seconds)] does with an int before it sleeps: the
    conversion to nanoseconds raises OverflowError when they do not fit,
    whatever the sign; then a negative length is refused; a length that is
    accepted is handed to the operating system. *)
Definition sleep (seconds : Z) : M unit :=
  if (seconds <? - PyTime_MAX_SECONDS) || (PyTime_MAX_SECONDS <? seconds)
  then raise OverflowError
  else if seconds <? 0 then raise ValueError
  else emit (Sleep seconds).

(** [time.sleep(seconds)]: the checks of the length, then the sleep
    itself. *)
Definition time_sleep (w : world) (seconds : Z) : M unit :=
  sleep seconds ;;; lift (os_sleep w).

(** The body of [while True]. *)
Definition main_iteration (cfg : config) (w : world) : M unit :=
  try_except (run_once cfg w)
    (fun e => logger ERROR (MsgUnexpected e)) ;;;
  logger INFO (MsgSleeping (REFRESH_INTERVAL_SECONDS cfg)) ;;;
  time_sleep w (REFRESH_INTERVAL_SECONDS cfg).

(** The process after some iterations of the loop: still in the loop, or
    ended by an exception that left it. *)
Inductive status : Type :=
| Running
| Terminated (e : exn).

(** [cycles] iterations of [while True], the first one being cycle number
    [i]; [worlds k] is what the outside world answers during cycle [k]. *)
Fixpoint main_loop (cfg : config) (worlds : nat -> world) (i cycles : nat)
  : list event * status :=
  match cycles with
  | O => ([], Running)
  | S cycles' =>
      match main_iteration cfg (worlds i) with
      | (tr, Ok _) =>
          let (tr', st) := main_loop cfg worlds (S i) cycles' in
          (tr ++ tr', st)
      | (tr, Raise e) => (tr, Terminated e)
      end
  end.

Definition main (cfg : config) (worlds : nat -> world) (cycles : nat)
  : list event * status :=
  let (tr, st) := main_loop cfg worlds 0 cycles in
  (Log INFO (MsgBotStarting (SHEET_NAME cfg) (DASHBOARD_TAB_NAME cfg)
               (TARGET_CELL cfg) (REFRESH_INTERVAL_SECONDS cfg)) :: tr, st).

(** * Definitions of the specification *)

(** ** Trend classification *)

(** The classification as the specification words it: the threshold tests
    in their order. *)
Definition label_by_thresholds (lastPrice movingAverage : float) : string :=
  if (movingAverage * 1.10 <? lastPrice)%float then "WEAK"
  else if (movingAverage <=? lastPrice)%float then "MODERATE"
  else "STRONG".

(** The percentage deviation as the specification words it. *)
Definition diffPercent (lastPrice movingAverage : float) : float :=
  ((lastPrice - movingAverage) / movingAverage * 100)%float.

(** ** The moving average *)

(** The last [n] elements of a list, as the specification words it. *)
Definition last_elements {A : Type} (n : nat) (xs : list A) : list A :=
  rev (firstn n (rev xs)).

(** The unweighted arithmetic mean of a list of closes in binary64
    arithmetic: the sum of its elements over their number. *)
Definition arithmetic_mean (xs : list float) : float :=
  (fold_left PrimFloat.add xs 0 / Py.float_of_int (Py.len xs))%float.

(** ** The order of timestamps *)

(** [x <= y] on timestamps, in the order [sorted] sorts them by: that of
    the strings the API sends. *)
Definition ts_le (x y : string) : Prop := String.leb x y = true.

(** [a] comes no later than [b]: both carry a key, in that order. *)
Definition key_le {A : Type} (key : A -> option string) (a b : A) : Prop :=
  exists x y, key a = Some x /\ key b = Some y /\ ts_le x y.

Definition has_key {A : Type} (key : A -> option string) (a : A) : Prop :=
  key a <> None.

(** ** Cycles *)

(** The events by which a cycle publishes a label or analyses bars. *)
Definition is_publish (ev : event) : bool :=
  match ev with
  | SheetUpdate _ _ => true
  | _ => false
  end.

Definition is_analysis (ev : event) : bool :=
  match ev with
  | Log _ (MsgOnlyCloses _ _) => true
  | Log _ (MsgComputedMA _ _ _) => true
  | Log _ (MsgClassification _ _ _ _ _) => true
  | _ => false
  end.

Definition idle (ev : event) : Prop :=
  is_publish ev = false /\ is_analysis ev = false.

(** What the scheduler boundary adds to a cycle: the log of the exception
    that left the cycle body, if one did. *)
Definition boundary_events (r : result unit) : list event :=
  match r with
  | Ok _ => []
  | Raise e => [Log ERROR (MsgUnexpected e)]
  end.

(** The events of one full iteration: the cycle, the boundary, the sleep. *)
Definition cycle_events (cfg : config) (w : world) : list event :=
  trace (run_once cfg w)
  ++ boundary_events (outcome (run_once cfg w))
  ++ [Log INFO (MsgSleeping (REFRESH_INTERVAL_SECONDS cfg));
      Sleep (REFRESH_INTERVAL_SECONDS cfg)].

(** [time.sleep] accepts the length and the operating system carries the
    sleep out. *)
Definition sleep_succeeds (cfg : config) (w : world) : Prop :=
  0 <= REFRESH_INTERVAL_SECONDS cfg <= PyTime_MAX_SECONDS
  /\ os_sleep w = Ok tt.

(** The cycle body raises nothing but exceptions deriving from
    [Exception]. *)
Definition cycle_errors_only (cfg : config) (w : world) : Prop :=
  forall e, outcome (run_once cfg w) = Raise e -> is_Exception e = true.

(** ** Sample inputs *)

Definition bar_at (t : string) (close : float) : bar :=
  {| bar_t := Some t; bar_o := None; bar_h := None; bar_l := None;
     bar_c := Some close; bar_v := None |}.

Definition bar_without_close (t : string) : bar :=
  {| bar_t := Some t; bar_o := None; bar_h := None; bar_l := None;
     bar_c := None; bar_v := None |}.

(** Three daily bars closing at 90, 100 and 110. *)
Definition three_bars : list bar :=
  [bar_at "2024-01-02T05:00:00Z" 90;
   bar_at "2024-01-03T05:00:00Z" 100;
   bar_at "2024-01-04T05:00:00Z" 110].

(** The three bars in an order that is not chronological. *)
Definition unsorted_bars : list bar :=
  [bar_at "2024-01-04T05:00:00Z" 110;
   bar_at "2024-01-02T05:00:00Z" 90;
   bar_at "2024-01-03T05:00:00Z" 100].

(** A world in which credentials are set and every service answers, the
    market-data API with status 200 and the member [bars] given, but for the
    read and the update of the target cell, which answer as given. *)
Definition world_with (acell : result (option string)) (update : result unit)
    (bars : option bars_json) : world :=
  {| env_GOOGLE_SERVICE_ACCOUNT_JSON := Some "{}";
     gspread_authorize := Ok tt;
     client_open := Ok tt;
     sh_worksheet := Ok tt;
     env_ALPACA_API_KEY_ID := Some "key";
     env_ALPACA_API_SECRET_KEY := Some "secret";
     requests_get := Ok {| status_code := 200; text := ""; json := Ok bars |};
     ws_acell := acell;
     ws_update := update;
     os_sleep := Ok tt |}.

Definition world_answering (bars : option bars_json) : world :=
  world_with (Ok (Some "STRONG")) (Ok tt) bars.

(** A world in which the read of the previous cell value fails. *)
Definition world_read_fails : world :=
  world_with (Raise APIError) (Ok tt) (Some (BarsList three_bars)).

(** A world in which the update of the target cell fails. *)
Definition world_publish_fails : world :=
  world_with (Ok (Some "STRONG")) (Raise APIError) (Some (BarsList three_bars)).

(** A world in which the HTTP request is interrupted from the keyboard. *)
Definition world_interrupted : world :=
  {| env_GOOGLE_SERVICE_ACCOUNT_JSON := Some "{}";
     gspread_authorize := Ok tt;
     client_open := Ok tt;
     sh_worksheet := Ok tt;
     env_ALPACA_API_KEY_ID := Some "key";
     env_ALPACA_API_SECRET_KEY := Some "secret";
     requests_get := Raise KeyboardInterrupt;
     ws_acell := Ok None;
     ws_update := Ok tt;
     os_sleep := Ok tt |}.

(** A world in which the operating system refuses the sleep. *)
Definition world_sleep_refused : world :=
  {| env_GOOGLE_SERVICE_ACCOUNT_JSON := Some "{}";
     gspread_authorize := Ok tt;
     client_open := Ok tt;
     sh_worksheet := Ok tt;
     env_ALPACA_API_KEY_ID := Some "key";
     env_ALPACA_API_SECRET_KEY := Some "secret";
     requests_get := Ok {| status_code := 200; text := "";
                           json := Ok (Some (BarsList [])) |};
     ws_acell := Ok None;
     ws_update := Ok tt;
     os_sleep := Raise OSError |}.

(** The default configuration with another interval. *)
Definition config_with_interval (seconds : Z) : config :=
  {| SHEET_NAME := "Active-Investing";
     DASHBOARD_TAB_NAME := "Dashboard";
     TARGET_CELL := "T3";
     ALPACA_DATA_BASE_URL := "https://data.alpaca.markets";
     ALPACA_SYMBOL := "RSP";
     MA_WINDOW := 960;
     REFRESH_INTERVAL_SECONDS := seconds |}.

(** The default configuration with a negative interval. *)
Definition config_negative_interval : config :=
  {| SHEET_NAME := "Active-Investing";
     DASHBOARD_TAB_NAME := "Dashboard";
     TARGET_CELL := "T3";
     ALPACA_DATA_BASE_URL := "https://data.alpaca.markets";
     ALPACA_SYMBOL := "RSP";
     MA_WINDOW := 960;
     REFRESH_INTERVAL_SECONDS := -5 |}.

(** ** Further predicates on events and bars *)

Definition is_request (ev : event) : bool :=
  match ev with
  | HttpGet _ _ => true
  | _ => false
  end.

Definition is_sheet_access (ev : event) : bool :=
  match ev with
  | SheetRead _ => true
  | SheetUpdate _ _ => true
  | _ => false
  end.

(** ["c" in b]. *)
Definition has_close (b : bar) : bool :=
  match bar_c b with
  | Some _ => true
  | None => false
  end.

(** The labels [classify_trend] chooses from. *)
Definition labels : list string := ["WEAK"; "MODERATE"; "STRONG"].

(** The URL [fetch_rsp_daily_bars] requests. *)
Definition request_url (cfg : config) (symbol : string) : string :=
  (ALPACA_DATA_BASE_URL cfg ++ "/v2/stocks/" ++ symbol ++ "/bars")%string.

(** The lists [sorted] can have built: of at most one element, or of
    elements that all have a key. *)
Definition comparable {A : Type} (key : A -> option string) (xs : list A)
  : Prop :=
  (List.length xs <= 1)%nat \/ Forall (has_key key) xs.

(** No event of a trace satisfies [f]. *)
Definition without (f : event -> bool) (tr : list event) : Prop :=
  Forall (fun ev => f ev = false) tr.

(** The updates of a trace are none, or one update of the target cell with
    one of the three labels. *)
Definition at_most_one_label (cfg : config) (updates : list event) : Prop :=
  updates = []
  \/ exists label,
       In label labels /\ updates = [SheetUpdate (TARGET_CELL cfg) label].

(** Step 5 of [run_once]: the best-effort read of the previous value and the
    update of the target cell. *)
Definition publish_label (cfg : config) (w : world) (label : string)
    (diff_pct : float) : M unit :=
  previous_value <- try_except
                      (emit (SheetRead (TARGET_CELL cfg)) ;;; lift (ws_acell w))
                      (fun _ => ret None) ;;
  logger INFO (MsgPrevious (DASHBOARD_TAB_NAME cfg) (TARGET_CELL cfg)
                 previous_value) ;;;
  update_dashboard_cell cfg w label ;;;
  logger INFO (MsgFinished (TARGET_CELL cfg) label diff_pct) ;;;
  ret tt.

(** [run_once] from the test of the fetched bars on. *)
Definition analyse_and_publish (cfg : config) (w : world) (bars : list bar)
  : M unit :=
  match bars with
  | [] => logger ERROR (MsgSkipping (ALPACA_SYMBOL cfg)) ;;; ret tt
  | _ :: _ =>
      ma_value <- compute_moving_average cfg bars (MA_WINDOW cfg) ;;
      last_bar <- lift (Py.last bars) ;;
      last_price <- match bar_c last_bar with
                    | Some x => ret x
                    | None => raise KeyError
                    end ;;
      let last_time := bar_t last_bar in
      logger INFO (MsgLatestBar last_time last_price) ;;;
      r <- classify_trend cfg last_price ma_value ;;
      let (label, diff_pct) := r : string * float in
      publish_label cfg w label diff_pct
  end.

(** ** Further sample inputs *)

(** A world whose market-data API answers as given. *)
Definition world_responding (answer : result response) : world :=
  {| env_GOOGLE_SERVICE_ACCOUNT_JSON := Some "{}";
     gspread_authorize := Ok tt;
     client_open := Ok tt;
     sh_worksheet := Ok tt;
     env_ALPACA_API_KEY_ID := Some "key";
     env_ALPACA_API_SECRET_KEY := Some "secret";
     requests_get := answer;
     ws_acell := Ok (Some "STRONG");
     ws_update := Ok tt;
     os_sleep := Ok tt |}.

(** A bar without a timestamp, and a body listing it after a dated bar. *)
Definition bar_undated : bar :=
  {| bar_t := None; bar_o := None; bar_h := None; bar_l := None;
     bar_c := Some 100%float; bar_v := None |}.

Definition response_undated : response :=
  {| status_code := 200; text := "";
     json := Ok (Some (BarsList
               [bar_at "2024-01-02T05:00:00Z" 90; bar_undated])) |}.

(** A dated bar followed by a later bar without a close. *)
Definition bars_last_without_close : list bar :=
  [bar_at "2024-01-02T05:00:00Z" 90;
   bar_without_close "2024-01-03T05:00:00Z"].

(** Bars that all closed at zero. *)
Definition bars_closing_at_zero : list bar :=
  [bar_at "2024-01-02T05:00:00Z" 0;
   bar_at "2024-01-03T05:00:00Z" 0].

(** A world without the service-account JSON. *)
Definition world_without_service_account : world :=
  {| env_GOOGLE_SERVICE_ACCOUNT_JSON := None;
     gspread_authorize := Ok tt;
     client_open := Ok tt;
     sh_worksheet := Ok tt;
     env_ALPACA_API_KEY_ID := Some "key";
     env_ALPACA_API_SECRET_KEY := Some "secret";
     requests_get := Ok {| status_code := 200; text := "";
                           json := Ok (Some (BarsList three_bars)) |};
     ws_acell := Ok None;
     ws_update := Ok tt;
     os_sleep := Ok tt |}.

(** What the analysis of a cycle has established when it reaches the
    spreadsheet. *)
Definition analysis_succeeded (cfg : config) (w : world) : Prop :=
  exists bars ma last_bar last_price,
    outcome (fetch_rsp_daily_bars cfg w (ALPACA_SYMBOL cfg) (MA_WINDOW cfg))
    = Ok bars
    /\ outcome (compute_moving_average cfg bars (MA_WINDOW cfg)) = Ok ma
    /\ Py.last bars = Ok last_bar
    /\ bar_c last_bar = Some last_price
    /\ PrimFloat.eqb ma 0 = false.

Definition response_bars (bars : option bars_json) : response :=
  {| status_code := 200; text := ""; json := Ok bars |}.

Definition response_forbidden : response :=
  {| status_code := 403; text := "forbidden"; json := Raise JSONDecodeError |}.

(** * The specification, claim by claim *)


(** ** Trend classification *)

Lemma classify_trend_nonzero (cfg : config) (last_price ma_value : float) :
  PrimFloat.eqb ma_value 0 = false ->
  classify_trend cfg last_price ma_value =
    ([Log INFO (MsgClassification (ALPACA_SYMBOL cfg) last_price ma_value
                  (diffPercent last_price ma_value)
                  (label_by_thresholds last_price ma_value))],
     Ok (label_by_thresholds last_price ma_value,
         diffPercent last_price ma_value)).
Proof.
  intros Hnz. unfold classify_trend, Py.float_div.
  rewrite Hnz. reflexivity.
Qed.

(** C1: for a non-zero moving average [classify_trend] returns the label of
    the ordered threshold tests (WEAK above 110% of the average, else
    MODERATE at or above the average, else STRONG); with an average of 100
    the prices 110 and 100 give MODERATE, 110.0001 gives WEAK and 99.999
    gives STRONG. *)
Theorem classify_trend_label :
  (forall cfg last_price ma_value,
      PrimFloat.eqb ma_value 0 = false ->
      exists diff,
        outcome (classify_trend cfg last_price ma_value)
        = Ok (label_by_thresholds last_price ma_value, diff))
  /\ (forall cfg, exists diff,
         outcome (classify_trend cfg 110 100) = Ok ("MODERATE", diff))
  /\ (forall cfg, exists diff,
         outcome (classify_trend cfg 110.0001 100) = Ok ("WEAK", diff))
  /\ (forall cfg, exists diff,
         outcome (classify_trend cfg 100 100) = Ok ("MODERATE", diff))
  /\ (forall cfg, exists diff,
         outcome (classify_trend cfg 99.999 100) = Ok ("STRONG", diff)).
Proof.
  split.
  - intros cfg lp ma Hnz. eexists.
    rewrite (classify_trend_nonzero cfg lp ma Hnz). reflexivity.
  - repeat split; intros cfg; eexists;
      (rewrite classify_trend_nonzero by reflexivity); reflexivity.
Qed.

Lemma classify_trend_label_witness :
  exists diff,
    outcome (classify_trend default_config 120 100)
    = Ok (label_by_thresholds 120 100, diff).
Proof.
  apply (proj1 classify_trend_label). reflexivity.
Defined.

(** C5: with a moving average of zero, of either sign, [classify_trend]
    raises ZeroDivisionError (the spec's DegenerateInputError) whatever the
    last price is: no label is returned and nothing is logged. *)
Theorem classify_trend_zero_average :
  forall cfg last_price ma_value,
    PrimFloat.eqb ma_value 0 = true ->
    classify_trend cfg last_price ma_value = ([], Raise ZeroDivisionError).
Proof.
  intros cfg lp ma Hz. unfold classify_trend, Py.float_div.
  rewrite Hz. reflexivity.
Qed.

Lemma classify_trend_zero_average_witness :
  classify_trend default_config 105 0 = ([], Raise ZeroDivisionError).
Proof.
  apply classify_trend_zero_average. reflexivity.
Defined.

(** C6: for a non-zero moving average the second component returned by
    [classify_trend] is (lastPrice - movingAverage) / movingAverage * 100;
    for a last price of 105 and an average of 100 it is exactly 5.0. *)
Theorem classify_trend_diff_pct :
  (forall cfg last_price ma_value,
      PrimFloat.eqb ma_value 0 = false ->
      exists label,
        outcome (classify_trend cfg last_price ma_value)
        = Ok (label, diffPercent last_price ma_value))
  /\ (forall cfg, exists label,
         outcome (classify_trend cfg 105 100) = Ok (label, 5%float)).
Proof.
  split.
  - intros cfg lp ma Hnz. eexists.
    rewrite (classify_trend_nonzero cfg lp ma Hnz). reflexivity.
  - intros cfg. eexists.
    rewrite classify_trend_nonzero by reflexivity. reflexivity.
Qed.

Lemma classify_trend_diff_pct_witness :
  exists label,
    outcome (classify_trend default_config 105 100)
    = Ok (label, diffPercent 105 100).
Proof.
  apply (proj1 classify_trend_diff_pct). reflexivity.
Defined.

(** ** The moving average *)

Lemma last_elements_skipn {A : Type} (n : nat) (xs : list A) :
  last_elements n xs = skipn (List.length xs - n) xs.
Proof.
  unfold last_elements. rewrite firstn_rev, rev_involutive. reflexivity.
Qed.

Lemma last_elements_length {A : Type} (n : nat) (xs : list A) :
  (n <= List.length xs)%nat -> List.length (last_elements n xs) = n.
Proof.
  intros Hn. rewrite last_elements_skipn, length_skipn. lia.
Qed.

(** A negative slice start within the list selects the last elements. *)
Lemma slice_from_neg {A : Type} (xs : list A) (w : Z) :
  1 <= w <= Py.len xs ->
  Py.slice_from xs (- w) = last_elements (Z.to_nat w) xs.
Proof.
  unfold Py.slice_from, Py.len. intros Hw.
  assert (Hneg : (- w <? 0) = true) by (apply Z.ltb_lt; lia).
  rewrite Hneg, last_elements_skipn. f_equal. lia.
Qed.

Lemma slice_from_whole {A : Type} (xs : list A) :
  Py.slice_from xs (- Py.len xs) = xs.
Proof.
  unfold Py.slice_from, Py.len.
  destruct (- Z.of_nat (List.length xs) <? 0) eqn:E.
  - replace (Z.max 0 (- Z.of_nat (List.length xs) + Z.of_nat (List.length xs)))
      with 0 by lia.
    reflexivity.
  - apply Z.ltb_ge in E.
    replace (Z.min (- Z.of_nat (List.length xs)) (Z.of_nat (List.length xs)))
      with 0 by lia.
    reflexivity.
Qed.

(** The divisor of a float sum is, in absolute value, at most the number
    of closes: [Py.float_of_int] is applied within the binary64 range. *)
Lemma float_divisor_bounded {A : Type} (xs : list A) (w : Z) :
  w <= Py.len xs ->
  Py.slice_from xs (- w) <> [] ->
  Z.abs w <= Py.len xs.
Proof.
  intros Hw Hne. destruct (Z.leb_spec 0 w) as [Hpos|Hneg]; [lia|].
  unfold Py.slice_from in Hne.
  assert (E : (- w <? 0) = false) by (apply Z.ltb_ge; lia).
  rewrite E in Hne.
  destruct (Z.leb_spec (Py.len xs) (- w)) as [Hbig|Hsmall]; [|lia].
  elim Hne. apply skipn_all2. unfold Py.len in *. lia.
Qed.

Lemma truediv_sum_mean (xs : list float) :
  xs <> [] ->
  Py.truediv (Py.sum xs) (Py.len xs) = Ok (arithmetic_mean xs).
Proof.
  intros Hne. destruct xs as [|x xs']; [congruence|].
  unfold Py.truediv, Py.sum, arithmetic_mean.
  assert (Hz : (Py.len (x :: xs') =? 0) = false).
  { apply Z.eqb_neq. unfold Py.len. simpl List.length. lia. }
  rewrite Hz. reflexivity.
Qed.

Lemma closes_of_none (bars : list bar) :
  closes_of bars = [] <-> forall b, In b bars -> bar_c b = None.
Proof.
  induction bars as [|b bars IH]; simpl.
  - split; [intros _ b []|reflexivity].
  - destruct (bar_c b) eqn:Hc.
    + split; [discriminate|].
      intros H. specialize (H b (or_introl eq_refl)). congruence.
    + rewrite IH. split.
      * intros H b' [<-|Hin]; auto.
      * intros H b' Hin. apply H. now right.
Qed.

(** Where the window is positive and some close is available, the result. *)
Lemma compute_moving_average_shrunk (cfg : config) (bars : list bar) (window : Z) :
  closes_of bars <> [] ->
  Py.len (closes_of bars) < window ->
  compute_moving_average cfg bars window =
    ([Log WARNING (MsgOnlyCloses (Py.len (closes_of bars)) window);
      Log INFO (MsgComputedMA (Py.len (closes_of bars)) (ALPACA_SYMBOL cfg)
                  (arithmetic_mean (closes_of bars)))],
     Ok (arithmetic_mean (closes_of bars))).
Proof.
  intros Hne Hlt.
  destruct bars as [|b bars']; [now elim Hne|].
  unfold compute_moving_average.
  set (closes := closes_of (b :: bars')) in *.
  assert (E : (Py.len closes <? window) = true) by (apply Z.ltb_lt; lia).
  rewrite E. unfold logger, emit, ret, lift, bind.
  rewrite slice_from_whole, (truediv_sum_mean closes Hne). reflexivity.
Qed.

(** C4: on an empty bar series [compute_moving_average] raises ValueError
    (the spec's InsufficientDataError) for every window, and returns no
    value. *)
Theorem compute_moving_average_empty :
  forall cfg window,
    compute_moving_average cfg [] window = ([], Raise ValueError).
Proof.
  intros cfg window. reflexivity.
Qed.

(** Where the window is positive and within the closes, the result. *)
Lemma compute_moving_average_within (cfg : config) (bars : list bar) (window : Z) :
  1 <= window <= Py.len (closes_of bars) ->
  let relevant := last_elements (Z.to_nat window) (closes_of bars) in
  Py.len relevant = window /\
  compute_moving_average cfg bars window =
    ([Log INFO (MsgComputedMA window (ALPACA_SYMBOL cfg)
                  (arithmetic_mean relevant))],
     Ok (arithmetic_mean relevant)).
Proof.
  intros Hw relevant.
  assert (Hlen : Py.len relevant = window).
  { unfold relevant, Py.len in *. rewrite last_elements_length; lia. }
  split; [exact Hlen|].
  destruct bars as [|b bars'].
  { unfold Py.len in Hw. simpl in Hw. lia. }
  unfold compute_moving_average.
  set (closes := closes_of (b :: bars')) in *.
  assert (E : (Py.len closes <? window) = false) by (apply Z.ltb_ge; lia).
  rewrite E. unfold logger, emit, ret, lift, bind.
  rewrite (slice_from_neg closes window Hw). fold relevant.
  assert (Hrel : relevant <> []).
  { intros Hnil. rewrite Hnil in Hlen. unfold Py.len in Hlen. simpl in Hlen. lia. }
  pose proof (truediv_sum_mean relevant Hrel) as Hdiv.
  rewrite Hlen in Hdiv. rewrite Hdiv. reflexivity.
Qed.

(** C2: for a non-empty bar series and a window between 1 and the number of
    closes of the series, [compute_moving_average] returns the arithmetic
    mean of the last [window] closes, sum(closes[-window:]) / window. *)
Theorem compute_moving_average_mean :
  forall cfg bars window,
    bars <> [] ->
    1 <= window <= Py.len (closes_of bars) ->
    let relevant := last_elements (Z.to_nat window) (closes_of bars) in
    Py.len relevant = window /\
    compute_moving_average cfg bars window =
      ([Log INFO (MsgComputedMA window (ALPACA_SYMBOL cfg)
                    (arithmetic_mean relevant))],
       Ok (arithmetic_mean relevant)).
Proof.
  intros cfg bars window _ Hw.
  exact (compute_moving_average_within cfg bars window Hw).
Qed.

Lemma compute_moving_average_mean_witness :
  compute_moving_average default_config three_bars 2 =
    ([Log INFO (MsgComputedMA 2 "RSP" 105)], Ok 105%float).
Proof.
  refine (proj2 (compute_moving_average_mean default_config three_bars 2 _ _)).
  - discriminate.
  - vm_compute. split; discriminate.
Defined.

(** C3, as stated, fails: a series of one bar that has no close is not
    empty and has fewer closes (none) than the window 1, and
    [compute_moving_average] raises ZeroDivisionError on it. *)
Lemma compute_moving_average_shrink_counterexample :
  ~ (forall cfg bars window,
        bars <> [] ->
        Py.len (closes_of bars) < window ->
        exists ma,
          outcome (compute_moving_average cfg bars window) = Ok ma).
Proof.
  intros H.
  destruct (H default_config [bar_without_close "2024-01-02T05:00:00Z"] 1)
    as [ma Hma].
  - discriminate.
  - reflexivity.
  - discriminate Hma.
Qed.

(** C3, amended: for a bar series with at least one close and a window
    greater than the number of closes, [compute_moving_average] raises no
    error, logs the shrinking of the window and returns the arithmetic mean
    of all the closes. *)
Theorem compute_moving_average_shrink :
  forall cfg bars window,
    closes_of bars <> [] ->
    Py.len (closes_of bars) < window ->
    trace (compute_moving_average cfg bars window) =
      [Log WARNING (MsgOnlyCloses (Py.len (closes_of bars)) window);
       Log INFO (MsgComputedMA (Py.len (closes_of bars)) (ALPACA_SYMBOL cfg)
                   (arithmetic_mean (closes_of bars)))]
    /\ outcome (compute_moving_average cfg bars window)
       = Ok (arithmetic_mean (closes_of bars)).
Proof.
  intros cfg bars window Hne Hlt.
  rewrite (compute_moving_average_shrunk cfg bars window Hne Hlt).
  split; reflexivity.
Qed.

Lemma compute_moving_average_shrink_witness :
  trace (compute_moving_average default_config three_bars 960) =
    [Log WARNING (MsgOnlyCloses 3 960); Log INFO (MsgComputedMA 3 "RSP" 100)]
  /\ outcome (compute_moving_average default_config three_bars 960)
     = Ok 100%float.
Proof.
  refine (compute_moving_average_shrink default_config three_bars 960 _ _).
  - discriminate.
  - reflexivity.
Defined.

(** C10: there is a non-empty bar series without any close field on which
    [compute_moving_average] passes its emptiness check, shrinks every
    positive window to zero and raises ZeroDivisionError at the division;
    and for a non-empty series and a positive window the division succeeds
    exactly when at least one bar of the series has a close field. *)
Theorem compute_moving_average_zero_closes :
  (exists bars,
      bars <> [] /\
      (forall b, In b bars -> bar_c b = None) /\
      forall cfg window,
        0 < window ->
        compute_moving_average cfg bars window =
          ([Log WARNING (MsgOnlyCloses 0 window)], Raise ZeroDivisionError))
  /\ (forall cfg bars window,
         bars <> [] ->
         0 < window ->
         (outcome (compute_moving_average cfg bars window)
          = Raise ZeroDivisionError
          <-> forall b, In b bars -> bar_c b = None)
         /\ ((exists ma,
                 outcome (compute_moving_average cfg bars window) = Ok ma)
             <-> exists b, In b bars /\ bar_c b <> None)).
Proof.
  assert (Hzero : forall cfg bars window,
             bars <> [] -> 0 < window -> closes_of bars = [] ->
             compute_moving_average cfg bars window =
               ([Log WARNING (MsgOnlyCloses 0 window)], Raise ZeroDivisionError)).
  { intros cfg bars window Hne Hw Hc.
    destruct bars as [|b bars']; [now elim Hne|].
    unfold compute_moving_average. rewrite Hc.
    change (Py.len (@nil float)) with 0.
    assert (E : (0 <? window) = true) by (apply Z.ltb_lt; lia).
    rewrite E. reflexivity. }
  assert (Hok : forall cfg bars window,
             0 < window -> closes_of bars <> [] ->
             exists ma, outcome (compute_moving_average cfg bars window) = Ok ma).
  { intros cfg bars window Hw Hc.
    destruct (Z.ltb_spec (Py.len (closes_of bars)) window) as [Hlt|Hge].
    - eexists. rewrite (compute_moving_average_shrunk cfg bars window Hc Hlt).
      reflexivity.
    - destruct (compute_moving_average_within cfg bars window) as [_ Heq];
        [lia|].
      eexists. rewrite Heq. reflexivity. }
  split.
  - exists [bar_without_close "2024-01-02T05:00:00Z"].
    split; [discriminate|]. split.
    + intros b [<-|[]]. reflexivity.
    + intros cfg window Hw. apply Hzero; [discriminate|exact Hw|reflexivity].
  - intros cfg bars window Hne Hw.
    destruct (closes_of bars) eqn:Hc.
    + assert (Hnone : forall b, In b bars -> bar_c b = None)
        by (apply closes_of_none; exact Hc).
      rewrite (Hzero cfg bars window Hne Hw Hc). split.
      * split; [intros _; exact Hnone|reflexivity].
      * split; [intros [ma Hma]; discriminate Hma|].
        intros [b [Hin Hb]]. elim Hb. now apply Hnone.
    + assert (Hcne : closes_of bars <> []) by (rewrite Hc; discriminate).
      destruct (Hok cfg bars window Hw Hcne) as [ma Hma].
      assert (Hsome : exists b, In b bars /\ bar_c b <> None).
      { clear - Hcne. induction bars as [|b bars IH]; [now elim Hcne|].
        simpl in Hcne. destruct (bar_c b) eqn:Hb.
        - exists b. split; [now left|congruence].
        - destruct (IH Hcne) as [b' [Hin Hb']]. exists b'. split; [now right|exact Hb']. }
      split.
      * split; [rewrite Hma; discriminate|].
        intros Hnone. destruct Hsome as [b [Hin Hb]]. elim Hb. now apply Hnone.
      * split; [intros _; exact Hsome|intros _; exists ma; exact Hma].
Qed.

Lemma compute_moving_average_zero_closes_witness :
  (outcome (compute_moving_average default_config
              [bar_without_close "2024-01-02T05:00:00Z"] 960)
   = Raise ZeroDivisionError
   <-> forall b, In b [bar_without_close "2024-01-02T05:00:00Z"] ->
                 bar_c b = None)
  /\ ((exists ma,
          outcome (compute_moving_average default_config
                     [bar_without_close "2024-01-02T05:00:00Z"] 960) = Ok ma)
      <-> exists b, In b [bar_without_close "2024-01-02T05:00:00Z"]
                    /\ bar_c b <> None).
Proof.
  apply (proj2 compute_moving_average_zero_closes).
  - discriminate.
  - reflexivity.
Defined.

(** ** Laws of the monad *)

Lemma outcome_bind_ok {A B : Type} (m : M A) (k : A -> M B) (a : A) :
  outcome m = Ok a -> outcome (bind m k) = outcome (k a).
Proof.
  destruct m as [tr r]. simpl. intros ->. simpl.
  destruct (k a). reflexivity.
Qed.

Lemma outcome_bind_raise {A B : Type} (m : M A) (k : A -> M B) (e : exn) :
  outcome m = Raise e -> outcome (bind m k) = Raise e.
Proof.
  destruct m as [tr r]. simpl. intros ->. reflexivity.
Qed.

Lemma trace_bind_ok {A B : Type} (m : M A) (k : A -> M B) (a : A) :
  outcome m = Ok a -> trace (bind m k) = trace m ++ trace (k a).
Proof.
  destruct m as [tr r]. simpl. intros ->. simpl.
  destruct (k a). reflexivity.
Qed.

Lemma trace_bind_raise {A B : Type} (m : M A) (k : A -> M B) (e : exn) :
  outcome m = Raise e -> trace (bind m k) = trace m.
Proof.
  destruct m as [tr r]. simpl. intros ->. reflexivity.
Qed.

Lemma M_eta {A : Type} (m : M A) : m = (trace m, outcome m).
Proof. destruct m. reflexivity. Qed.

(** A property of events that holds along [m] and along every
    continuation holds along their sequence. *)
Lemma Forall_trace_bind {A B : Type} (P : event -> Prop) (m : M A) (k : A -> M B) :
  Forall P (trace m) ->
  (forall a, outcome m = Ok a -> Forall P (trace (k a))) ->
  Forall P (trace (bind m k)).
Proof.
  intros Hm Hk. destruct (outcome m) as [a|e] eqn:E.
  - rewrite (trace_bind_ok m k a E). apply Forall_app. split; auto.
  - rewrite (trace_bind_raise m k e E). exact Hm.
Qed.

(** ** The order of timestamps *)

Lemma ts_le_iff (x y : string) : ts_le x y <-> x = y \/ String_as_OT.lt x y.
Proof.
  unfold ts_le, String.leb.
  destruct (String.compare x y) eqn:E.
  - apply String_as_OT.cmp_eq in E. tauto.
  - apply String_as_OT.cmp_lt in E. tauto.
  - split; [discriminate|].
    intros [->|Hlt].
    + assert (String.compare y y = Eq) by (now apply String_as_OT.cmp_eq).
      congruence.
    + apply String_as_OT.cmp_lt in Hlt. unfold String_as_OT.cmp in Hlt.
      congruence.
Qed.

Lemma ts_le_refl (x : string) : ts_le x x.
Proof. apply ts_le_iff. now left. Qed.

Lemma ts_le_trans (x y z : string) : ts_le x y -> ts_le y z -> ts_le x z.
Proof.
  rewrite !ts_le_iff. intros [->|Hxy] [->|Hyz]; auto.
  right. exact (String_as_OT.lt_trans _ _ _ Hxy Hyz).
Qed.

Lemma ltb_true_ts_le (x y : string) : String.ltb x y = true -> ts_le x y.
Proof.
  unfold String.ltb, ts_le, String.leb.
  destruct (String.compare x y); congruence.
Qed.

Lemma ltb_false_ts_le (x y : string) : String.ltb x y = false -> ts_le y x.
Proof.
  unfold String.ltb, ts_le, String.leb.
  rewrite (String.compare_antisym y x).
  destruct (String.compare x y); simpl; congruence.
Qed.

Section Sorting.

Context {A : Type} (key : A -> option string).

Lemma key_le_refl (a : A) : has_key key a -> key_le key a a.
Proof.
  unfold has_key. destruct (key a) as [x|] eqn:E; [|congruence].
  intros _. exists x, x. rewrite E. auto using ts_le_refl.
Qed.

Lemma key_le_trans (a b c : A) : key_le key a b -> key_le key b c -> key_le key a c.
Proof.
  intros (x & y & Hx & Hy & Hxy) (y' & z & Hy' & Hz & Hyz).
  assert (y' = y) by congruence. subst y'.
  exists x, z. eauto using ts_le_trans.
Qed.

Lemma insert_sorted (x : A) (xs : list A) :
  has_key key x -> Forall (has_key key) xs ->
  exists r,
    Py.insert key x xs = Ok r
    /\ Permutation (x :: xs) r
    /\ (StronglySorted (key_le key) xs -> StronglySorted (key_le key) r).
Proof.
  intros Hx Hxs. induction Hxs as [|y ys Hy Hys IH].
  - exists [x]. simpl. repeat split; auto.
    intros _. repeat constructor.
  - unfold has_key in Hx, Hy. simpl.
    destruct (key x) as [kx|] eqn:Ex; [|congruence].
    destruct (key y) as [ky|] eqn:Ey; [|congruence].
    simpl. destruct (String.ltb kx ky) eqn:Hlt.
    + exists (x :: y :: ys). repeat split; auto.
      intros Hs. constructor; [exact Hs|].
      assert (Hxy : key_le key x y).
      { exists kx, ky. auto using ltb_true_ts_le. }
      constructor; [exact Hxy|].
      apply StronglySorted_inv in Hs. destruct Hs as [_ Hall].
      eapply Forall_impl; [|exact Hall].
      intros z Hz. exact (key_le_trans _ _ _ Hxy Hz).
    + destruct IH as (r & Hr & Hperm & Hsorted). rewrite Hr.
      exists (y :: r). repeat split.
      * rewrite perm_swap. now constructor.
      * intros Hs. apply StronglySorted_inv in Hs. destruct Hs as [Hs Hall].
        constructor; [auto|].
        eapply Permutation_Forall; [exact Hperm|].
        constructor; [|exact Hall].
        exists ky, kx. auto using ltb_false_ts_le.
Qed.

Lemma sorted_from (xs acc : list A) :
  Forall (has_key key) xs -> Forall (has_key key) acc -> StronglySorted (key_le key) acc ->
  exists r,
    fold_left (fun acc x =>
                 match acc with
                 | Raise e => Raise e
                 | Ok s => Py.insert key x s
                 end) xs (Ok acc) = Ok r
    /\ Permutation (acc ++ xs) r
    /\ StronglySorted (key_le key) r.
Proof.
  intros Hxs. revert acc.
  induction Hxs as [|x xs Hx Hxs IH]; intros acc Hacc Hs.
  - exists acc. simpl. rewrite app_nil_r. auto.
  - simpl.
    destruct (insert_sorted x acc Hx Hacc) as (s & Hins & Hperm & Hsorted).
    rewrite Hins.
    destruct (IH s) as (r & Hr & Hperm' & Hs'); auto.
    { eapply Permutation_Forall; [exact Hperm|]. now constructor. }
    exists r. repeat split; auto.
    rewrite <- Hperm'. rewrite <- Hperm.
    change (x :: xs) with ([x] ++ xs). rewrite app_assoc.
    apply Permutation_app_tail. symmetry. apply Permutation_cons_append.
Qed.

(** [sorted] of a list whose elements all have a key: no error, a
    rearrangement of the list, in ascending order of the keys. *)
Lemma sorted_spec (xs : list A) :
  Forall (has_key key) xs ->
  exists r,
    Py.sorted key xs = Ok r
    /\ Permutation xs r
    /\ StronglySorted (key_le key) r.
Proof.
  intros Hxs.
  destruct (sorted_from xs [] Hxs) as (r & Hr & Hperm & Hs);
    [constructor | constructor |].
  exists r. auto.
Qed.

(** The last element of a sorted list has the greatest key. *)
Lemma sorted_last_greatest (r : list A) :
  r <> [] -> Forall (has_key key) r -> StronglySorted (key_le key) r ->
  exists last_elt,
    Py.last r = Ok last_elt
    /\ In last_elt r
    /\ forall a, In a r -> key_le key a last_elt.
Proof.
  intros Hne Hkeys Hs.
  induction Hs as [|x r Hs IH Hall]; [congruence|].
  destruct r as [|y r'].
  - exists x. repeat split; [now left|].
    intros a [<-|[]]. apply key_le_refl. now inversion Hkeys.
  - destruct IH as (z & Hlast & Hin & Hmax); [discriminate|now inversion Hkeys|].
    exists z. repeat split.
    + unfold Py.last in *. simpl in *.
      destruct (rev r' ++ [y]) eqn:E.
      * destruct (rev r'); discriminate E.
      * simpl. exact Hlast.
    + now right.
    + intros a [<-|Ha]; [|auto].
      rewrite Forall_forall in Hall. now apply Hall.
Qed.

End Sorting.

(** ** The market-data client *)

Lemma log_closes_outcome (bs : list bar) : outcome (log_closes bs) = Ok tt.
Proof.
  induction bs as [|b bs IH]; [reflexivity|].
  cbn [log_closes]. rewrite (outcome_bind_ok _ _ tt) by reflexivity. exact IH.
Qed.

Ltac bind_ok := erewrite outcome_bind_ok by reflexivity.

(** C7: when the upstream API answers with a non-empty list of bars, each
    with its timestamp, in whatever order, [fetch_rsp_daily_bars] returns
    these bars sorted in ascending order of timestamp, and the last bar of
    the result is a bar of the input with the latest timestamp. *)
Theorem fetch_sorted_by_timestamp :
  forall cfg w symbol limit resp bars,
    Py.falsy (env_ALPACA_API_KEY_ID w) = false ->
    Py.falsy (env_ALPACA_API_SECRET_KEY w) = false ->
    requests_get w = Ok resp ->
    raise_for_status resp = Ok tt ->
    json resp = Ok (Some (BarsList bars)) ->
    bars <> [] ->
    Forall (has_key bar_t) bars ->
    exists series last_bar,
      outcome (fetch_rsp_daily_bars cfg w symbol limit) = Ok series
      /\ Permutation bars series
      /\ StronglySorted (key_le bar_t) series
      /\ Py.last series = Ok last_bar
      /\ In last_bar bars
      /\ (forall b, In b bars -> key_le bar_t b last_bar)
      /\ (forall b, In b bars ->
                    (forall b', In b' bars -> key_le bar_t b' b) ->
                    bar_t last_bar = bar_t b).
Proof.
  intros cfg w symbol limit resp bars Hkey Hsecret Hget Hstatus Hjson Hne Hts.
  destruct (sorted_spec bar_t bars Hts) as (series & Hsorted & Hperm & Hs).
  assert (Hts' : Forall (has_key bar_t) series)
    by (eapply Permutation_Forall; eauto).
  assert (Hne' : series <> []).
  { intros ->. apply Permutation_sym, Permutation_nil in Hperm. contradiction. }
  destruct (sorted_last_greatest bar_t series Hne' Hts' Hs)
    as (last_bar & Hlast & Hin & Hmax).
  assert (Hmax' : forall b, In b bars -> key_le bar_t b last_bar).
  { intros b Hb. apply Hmax. eapply Permutation_in; eauto. }
  assert (Hin' : In last_bar bars).
  { eapply Permutation_in; [symmetry; exact Hperm|exact Hin]. }
  exists series, last_bar. repeat split; auto.
  - unfold fetch_rsp_daily_bars. rewrite Hkey, Hsecret. simpl orb. cbv iota.
    do 2 bind_ok. rewrite Hget. do 2 bind_ok.
    rewrite Hstatus. bind_ok. rewrite Hjson. do 3 bind_ok.
    destruct bars as [|b bars']; [congruence|].
    rewrite Hsorted. bind_ok.
    destruct series as [|s series']; [congruence|].
    bind_ok. rewrite Hlast.
    do 4 bind_ok.
    rewrite (outcome_bind_ok _ _ tt) by apply log_closes_outcome.
    reflexivity.
  - intros b Hb Hlatest.
    destruct (Hmax' b Hb) as (x & y & Hx & Hy & Hxy).
    destruct (Hlatest last_bar Hin') as (y' & x' & Hy' & Hx' & Hyx).
    assert (x' = x) by congruence. assert (y' = y) by congruence. subst.
    rewrite Hx, Hy. f_equal. symmetry.
    apply String.leb_antisym; assumption.
Qed.

Lemma fetch_sorted_by_timestamp_witness :
  exists series last_bar,
    outcome (fetch_rsp_daily_bars default_config
               (world_answering (Some (BarsList unsorted_bars))) "RSP" 960)
    = Ok series
    /\ Permutation unsorted_bars series
    /\ StronglySorted (key_le bar_t) series
    /\ Py.last series = Ok last_bar
    /\ In last_bar unsorted_bars
    /\ (forall b, In b unsorted_bars -> key_le bar_t b last_bar)
    /\ (forall b, In b unsorted_bars ->
                  (forall b', In b' unsorted_bars -> key_le bar_t b' b) ->
                  bar_t last_bar = bar_t b).
Proof.
  apply (fetch_sorted_by_timestamp default_config
           (world_answering (Some (BarsList unsorted_bars))) "RSP" 960
           {| status_code := 200; text := "";
              json := Ok (Some (BarsList unsorted_bars)) |}).
  - reflexivity.
  - reflexivity.
  - reflexivity.
  - reflexivity.
  - reflexivity.
  - discriminate.
  - repeat constructor; discriminate.
Defined.

Example fetch_sorts_unsorted_bars :
  outcome (fetch_rsp_daily_bars default_config
             (world_answering (Some (BarsList unsorted_bars))) "RSP" 960)
  = Ok three_bars.
Proof. reflexivity. Qed.

(** ** One cycle *)

Lemma idle_lift {A : Type} (r : result A) : Forall idle (trace (lift r)).
Proof. constructor. Qed.

Lemma idle_log_closes (bs : list bar) : Forall idle (trace (log_closes bs)).
Proof.
  induction bs as [|b bs IH]; [constructor|].
  cbn [log_closes]. apply Forall_trace_bind; [|intros _ _; exact IH].
  repeat constructor.
Qed.

Ltac idle_step :=
  apply Forall_trace_bind; [try (repeat constructor; fail)|intros ? ?].

Lemma idle_get_gspread_client (w : world) :
  Forall idle (trace (get_gspread_client w)).
Proof.
  unfold get_gspread_client.
  destruct (Py.falsy _); [constructor|].
  repeat idle_step. constructor.
Qed.

Lemma idle_get_dashboard_worksheet (cfg : config) (w : world) :
  Forall idle (trace (get_dashboard_worksheet cfg w)).
Proof.
  unfold get_dashboard_worksheet. repeat idle_step. constructor.
Qed.

Lemma idle_fetch_rsp_daily_bars (cfg : config) (w : world) (symbol : string) (limit : Z) :
  Forall idle (trace (fetch_rsp_daily_bars cfg w symbol limit)).
Proof.
  unfold fetch_rsp_daily_bars.
  destruct (_ || _); [constructor|].
  do 2 idle_step.
  apply Forall_trace_bind; [constructor|intros resp _].
  idle_step.
  idle_step.
  { destruct (raise_for_status resp) as [[]|e]; [constructor|].
    unfold try_except, lift. destruct (is_Exception e); repeat constructor. }
  apply Forall_trace_bind; [constructor|intros data _].
  apply Forall_trace_bind; [|intros bars _].
  { destruct data as [[|bs]|]; constructor. }
  idle_step.
  destruct bars as [|b bs].
  - repeat idle_step. constructor.
  - repeat idle_step; [apply idle_log_closes|constructor].
Qed.

(** The operating system adds no event to those of the checks. *)
Lemma trace_time_sleep (w : world) (seconds : Z) :
  trace (time_sleep w seconds) = trace (sleep seconds).
Proof.
  unfold time_sleep. destruct (sleep seconds) as [tr [[]|e]]; simpl.
  - apply app_nil_r.
  - reflexivity.
Qed.

(** C8: in a cycle whose fetch succeeds and returns no bar, [run_once]
    returns normally, so that no exception reaches the cycle boundary;
    after the fetch it only logs that the update is skipped: no moving
    average is computed, no trend is classified and the target cell is not
    written. *)
Theorem run_once_no_bars :
  forall cfg w,
    outcome (get_gspread_client w) = Ok tt ->
    outcome (get_dashboard_worksheet cfg w) = Ok tt ->
    outcome (fetch_rsp_daily_bars cfg w (ALPACA_SYMBOL cfg) (MA_WINDOW cfg))
    = Ok [] ->
    outcome (run_once cfg w) = Ok tt
    /\ trace (run_once cfg w) =
         [Log INFO MsgCycleStart]
         ++ trace (get_gspread_client w)
         ++ trace (get_dashboard_worksheet cfg w)
         ++ trace (fetch_rsp_daily_bars cfg w (ALPACA_SYMBOL cfg) (MA_WINDOW cfg))
         ++ [Log ERROR (MsgSkipping (ALPACA_SYMBOL cfg))]
    /\ Forall idle (trace (run_once cfg w))
    /\ trace (main_iteration cfg w) =
         trace (run_once cfg w)
         ++ Log INFO (MsgSleeping (REFRESH_INTERVAL_SECONDS cfg))
         :: trace (sleep (REFRESH_INTERVAL_SECONDS cfg)).
Proof.
  intros cfg w Hclient Hws Hfetch.
  assert (Hout : outcome (run_once cfg w) = Ok tt).
  { unfold run_once. bind_ok.
    rewrite (outcome_bind_ok _ _ tt Hclient).
    rewrite (outcome_bind_ok _ _ tt Hws).
    rewrite (outcome_bind_ok _ _ [] Hfetch). reflexivity. }
  assert (Htrace : trace (run_once cfg w) =
            [Log INFO MsgCycleStart]
            ++ trace (get_gspread_client w)
            ++ trace (get_dashboard_worksheet cfg w)
            ++ trace (fetch_rsp_daily_bars cfg w (ALPACA_SYMBOL cfg) (MA_WINDOW cfg))
            ++ [Log ERROR (MsgSkipping (ALPACA_SYMBOL cfg))]).
  { unfold run_once.
    rewrite (trace_bind_ok _ _ tt) by reflexivity.
    rewrite (trace_bind_ok _ _ tt Hclient).
    rewrite (trace_bind_ok _ _ tt Hws).
    rewrite (trace_bind_ok _ _ [] Hfetch). reflexivity. }
  repeat split; auto.
  - rewrite Htrace. repeat (apply Forall_app; split).
    + repeat constructor.
    + apply idle_get_gspread_client.
    + apply idle_get_dashboard_worksheet.
    + apply idle_fetch_rsp_daily_bars.
    + repeat constructor.
  - unfold main_iteration.
    rewrite (M_eta (run_once cfg w)), Hout. unfold try_except.
    rewrite (trace_bind_ok _ _ tt) by reflexivity.
    rewrite (trace_bind_ok _ _ tt) by reflexivity.
    rewrite trace_time_sleep. reflexivity.
Qed.

Lemma run_once_no_bars_witness :
  let w := world_answering (Some (BarsList [])) in
  outcome (run_once default_config w) = Ok tt
  /\ trace (run_once default_config w) =
       [Log INFO MsgCycleStart]
       ++ trace (get_gspread_client w)
       ++ trace (get_dashboard_worksheet default_config w)
       ++ trace (fetch_rsp_daily_bars default_config w "RSP" 960)
       ++ [Log ERROR (MsgSkipping "RSP")]
  /\ Forall idle (trace (run_once default_config w))
  /\ trace (main_iteration default_config w) =
       trace (run_once default_config w)
       ++ Log INFO (MsgSleeping 3600) :: trace (sleep 3600).
Proof.
  apply (run_once_no_bars default_config (world_answering (Some (BarsList [])))).
  - reflexivity.
  - reflexivity.
  - reflexivity.
Defined.

(** The end-to-end scenario of the specification: closes 90, 100 and 110
    with a window of 3 give an average of 100, a deviation of 10 percent and
    the label MODERATE, which is written to the target cell. *)
Example run_once_three_bars :
  let cfg := {| SHEET_NAME := "Active-Investing";
                DASHBOARD_TAB_NAME := "Dashboard";
                TARGET_CELL := "T3";
                ALPACA_DATA_BASE_URL := "https://data.alpaca.markets";
                ALPACA_SYMBOL := "RSP";
                MA_WINDOW := 3;
                REFRESH_INTERVAL_SECONDS := 3600 |} in
  let w := world_answering (Some (BarsList unsorted_bars)) in
  outcome (run_once cfg w) = Ok tt
  /\ In (Log INFO (MsgComputedMA 3 "RSP" 100)) (trace (run_once cfg w))
  /\ In (Log INFO (MsgClassification "RSP" 110 100 10 "MODERATE"))
        (trace (run_once cfg w))
  /\ In (SheetUpdate "T3" "MODERATE") (trace (run_once cfg w)).
Proof.
  cbv zeta. split; [reflexivity|].
  repeat split; vm_compute; tauto.
Qed.

(** ** The scheduler loop *)

Lemma sleep_accepted (seconds : Z) :
  0 <= seconds <= PyTime_MAX_SECONDS -> sleep seconds = ([Sleep seconds], Ok tt).
Proof.
  intros [Hlo Hhi]. unfold sleep.
  assert (E1 : (seconds <? - PyTime_MAX_SECONDS) = false).
  { apply Z.ltb_ge. change PyTime_MAX_SECONDS with 9223372036 in *. lia. }
  assert (E2 : (PyTime_MAX_SECONDS <? seconds) = false)
    by (apply Z.ltb_ge; lia).
  assert (E3 : (seconds <? 0) = false) by (apply Z.ltb_ge; lia).
  rewrite E1, E2, E3. reflexivity.
Qed.

Lemma main_iteration_caught (cfg : config) (w : world) :
  sleep_succeeds cfg w ->
  cycle_errors_only cfg w ->
  main_iteration cfg w = (cycle_events cfg w, Ok tt).
Proof.
  intros [Hint Hos] Herr. unfold main_iteration, cycle_events, time_sleep.
  rewrite (sleep_accepted _ Hint), Hos. unfold cycle_errors_only in Herr.
  destruct (run_once cfg w) as [tr [[]|e]]; simpl in *.
  - reflexivity.
  - rewrite (Herr e eq_refl). simpl. rewrite <- app_assoc. reflexivity.
Qed.

Lemma main_loop_running (cfg : config) (worlds : nat -> world) (cycles i : nat) :
  (forall k, sleep_succeeds cfg (worlds k)) ->
  (forall k, cycle_errors_only cfg (worlds k)) ->
  main_loop cfg worlds i cycles =
    (List.concat (map (fun k => cycle_events cfg (worlds k)) (seq i cycles)), Running).
Proof.
  intros Hsleep Herr. revert i.
  induction cycles as [|n IH]; intros i; [reflexivity|].
  cbn [main_loop seq map List.concat].
  rewrite (main_iteration_caught cfg (worlds i) (Hsleep i) (Herr i)), IH.
  reflexivity.
Qed.

(** C9, as stated, fails, in four ways.  The read of the previous cell
    value raises APIError inside the cycle body: the handler around that
    read takes it, the cycle publishes and returns normally, and the
    scheduler boundary catches nothing.  A KeyboardInterrupt raised inside
    the cycle body passes the boundary and ends the process.  An interval
    that [time.sleep] refuses (negative, or beyond 9223372036 seconds) ends
    the process at the first sleep, which is outside the handler; and so
    does a sleep that the operating system refuses. *)
Lemma scheduler_boundary_counterexample :
  (let w := world_read_fails in
   is_Exception APIError = true
   /\ ws_acell w = Raise APIError
   /\ In (SheetRead "T3") (trace (run_once default_config w))
   /\ In (SheetUpdate "T3" "MODERATE") (trace (run_once default_config w))
   /\ outcome (run_once default_config w) = Ok tt
   /\ forall e,
        ~ In (Log ERROR (MsgUnexpected e))
             (trace (main_iteration default_config w)))
  /\ (requests_get world_interrupted = Raise KeyboardInterrupt
      /\ outcome (run_once default_config world_interrupted)
         = Raise KeyboardInterrupt
      /\ snd (main default_config (fun _ => world_interrupted) 3)
         = Terminated KeyboardInterrupt)
  /\ (snd (main (config_with_interval (-5))
              (fun _ => world_answering (Some (BarsList three_bars))) 3)
      = Terminated ValueError
      /\ snd (main (config_with_interval 10000000000)
                 (fun _ => world_answering (Some (BarsList three_bars))) 3)
         = Terminated OverflowError)
  /\ snd (main (config_with_interval 9223372036)
             (fun _ => world_sleep_refused) 3)
     = Terminated OSError.
Proof.
  split; [|split; [|split]].
  - cbv zeta. split; [reflexivity|]. split; [reflexivity|].
    split; [vm_compute; tauto|]. split; [vm_compute; tauto|].
    split; [reflexivity|].
    intros e Hin. vm_compute in Hin.
    repeat (destruct Hin as [Hin|Hin]; [discriminate Hin|]).
    exact Hin.
  - repeat split; reflexivity.
  - split; vm_compute; reflexivity.
  - vm_compute. reflexivity.
Qed.

(** C9, amended: every error (an exception deriving from Exception) that
    leaves the cycle body, a publish failure included, is caught at the
    scheduler boundary and logged there once; it does not end the process;
    when [time.sleep] accepts the interval (0 to 9223372036 seconds) and the
    operating system carries each sleep out, every cycle is followed by the
    sleep of the configured length and then by the next cycle, so that
    after any number of cycles the process is still in the loop. *)
Theorem main_never_exits :
  forall cfg worlds cycles,
    (forall k, sleep_succeeds cfg (worlds k)) ->
    (forall k, cycle_errors_only cfg (worlds k)) ->
    main cfg worlds cycles =
      (Log INFO (MsgBotStarting (SHEET_NAME cfg) (DASHBOARD_TAB_NAME cfg)
                   (TARGET_CELL cfg) (REFRESH_INTERVAL_SECONDS cfg))
       :: List.concat (map (fun k => cycle_events cfg (worlds k)) (seq 0 cycles)),
       Running).
Proof.
  intros cfg worlds cycles Hsleep Herr. unfold main.
  rewrite (main_loop_running cfg worlds cycles 0 Hsleep Herr). reflexivity.
Qed.

Example run_once_publish_failure :
  outcome (run_once default_config world_publish_fails) = Raise APIError
  /\ boundary_events (outcome (run_once default_config world_publish_fails))
     = [Log ERROR (MsgUnexpected APIError)].
Proof. split; reflexivity. Qed.

Lemma main_never_exits_witness :
  main default_config (fun _ => world_publish_fails) 2 =
    (Log INFO (MsgBotStarting "Active-Investing" "Dashboard" "T3" 3600)
     :: List.concat (map (fun k => cycle_events default_config world_publish_fails)
                  (seq 0 2)),
     Running).
Proof.
  apply (main_never_exits default_config (fun _ => world_publish_fails) 2).
  - intros k. split; [|reflexivity]. vm_compute. split; discriminate.
  - intros k e H. vm_compute in H. inversion H. reflexivity.
Defined.

(** With a negative interval [time.sleep] raises outside the handler and
    ends the process after the first cycle. *)
Example main_negative_interval :
  snd (main config_negative_interval
         (fun _ => world_answering (Some (BarsList three_bars))) 3)
  = Terminated ValueError.
Proof. reflexivity. Qed.

(** [KeyboardInterrupt] does not derive from [Exception]: raised inside the
    cycle body it passes the handler and ends the process. *)
Example main_keyboard_interrupt :
  snd (main default_config (fun _ => world_interrupted) 3)
  = Terminated KeyboardInterrupt.
Proof. reflexivity. Qed.

(** * Further properties of the code *)

(** ** The monad, continued *)

Lemma bind_ok_eq {A B : Type} (m : M A) (k : A -> M B) (a : A) :
  outcome m = Ok a ->
  bind m k = (trace m ++ trace (k a), outcome (k a)).
Proof.
  destruct m as [tr r]. simpl. intros ->. destruct (k a). reflexivity.
Qed.

Lemma bind_raise_eq {A B : Type} (m : M A) (k : A -> M B) (e : exn) :
  outcome m = Raise e -> bind m k = (trace m, Raise e).
Proof.
  destruct m as [tr r]. simpl. intros ->. reflexivity.
Qed.

Lemma without_nil (f : event -> bool) : without f [].
Proof. constructor. Qed.

Lemma without_app (f : event -> bool) (tr tr' : list event) :
  without f tr -> without f tr' -> without f (tr ++ tr').
Proof. intros H H'. apply Forall_app. split; assumption. Qed.

Lemma without_filter (f : event -> bool) (tr : list event) :
  without f tr -> filter f tr = [].
Proof.
  induction 1 as [|ev tr Hev _ IH]; [reflexivity|].
  simpl. rewrite Hev. exact IH.
Qed.

Lemma without_not_In (f : event -> bool) (tr : list event) (ev : event) :
  without f tr -> f ev = true -> ~ In ev tr.
Proof.
  intros H Hev Hin. unfold without in H. rewrite Forall_forall in H.
  specialize (H ev Hin). congruence.
Qed.

Lemma without_bind {A B : Type} (f : event -> bool) (m : M A) (k : A -> M B) :
  without f (trace m) ->
  (forall a, outcome m = Ok a -> without f (trace (k a))) ->
  without f (trace (bind m k)).
Proof. apply Forall_trace_bind. Qed.

Lemma idle_without_publish (tr : list event) :
  Forall idle tr -> without is_publish tr.
Proof.
  intros H. eapply Forall_impl; [|exact H]. intros ev [Hp _]. exact Hp.
Qed.

Lemma run_once_unfold (cfg : config) (w : world) :
  run_once cfg w =
    (logger INFO MsgCycleStart ;;;
     get_gspread_client w ;;;
     get_dashboard_worksheet cfg w ;;;
     bars <- fetch_rsp_daily_bars cfg w (ALPACA_SYMBOL cfg) (MA_WINDOW cfg) ;;
     analyse_and_publish cfg w bars).
Proof. reflexivity. Qed.

(** ** [sorted] on arbitrary keys *)

Section SortingAnyKeys.

Context {A : Type} (key : A -> option string).

Lemma lt_key_ok (a b : option string) (r : bool) :
  Py.lt_key a b = Ok r -> a <> None /\ b <> None.
Proof. destruct a, b; simpl; intros H; try discriminate; split; discriminate. Qed.

Lemma lt_key_raise (a b : option string) (e : exn) :
  Py.lt_key a b = Raise e -> e = TypeError /\ (a = None \/ b = None).
Proof.
  destruct a, b; simpl; intros H; try discriminate;
    inversion H; split; auto.
Qed.

Lemma insert_ok_perm (x : A) (xs r : list A) :
  Py.insert key x xs = Ok r -> Permutation (x :: xs) r.
Proof.
  revert r. induction xs as [|y ys IH]; intros r; simpl.
  - intros H. inversion H. reflexivity.
  - destruct (Py.lt_key (key x) (key y)) as [[|]|e]; [| |discriminate].
    + intros H. inversion H. reflexivity.
    + destruct (Py.insert key x ys) as [r'|e]; [|discriminate].
      intros H. inversion H. rewrite perm_swap. constructor. now apply IH.
Qed.

Lemma insert_ok_keys (x y : A) (ys r : list A) :
  Py.insert key x (y :: ys) = Ok r -> has_key key x /\ has_key key y.
Proof.
  simpl. destruct (Py.lt_key (key x) (key y)) as [b|e] eqn:E; [|discriminate].
  intros _. exact (lt_key_ok _ _ _ E).
Qed.

Lemma insert_raise (x : A) (xs : list A) (e : exn) :
  Py.insert key x xs = Raise e -> e = TypeError.
Proof.
  induction xs as [|y ys IH]; simpl; [discriminate|].
  destruct (Py.lt_key (key x) (key y)) as [[|]|e'] eqn:E.
  - discriminate.
  - destruct (Py.insert key x ys) as [r'|e']; [discriminate|].
    intros H. inversion H. subst. now apply IH.
  - intros H. inversion H. subst. now apply (lt_key_raise _ _ _ E).
Qed.

Lemma insert_ok_comparable (x : A) (xs r : list A) :
  comparable key xs -> Py.insert key x xs = Ok r -> comparable key r.
Proof.
  intros Hc H. pose proof (insert_ok_perm x xs r H) as Hperm.
  destruct xs as [|y ys].
  - inversion H. left. simpl. lia.
  - destruct (insert_ok_keys x y ys r H) as [Hx Hy].
    right. eapply Permutation_Forall; [exact Hperm|].
    constructor; [exact Hx|].
    destruct Hc as [Hlen|Hall]; [|exact Hall].
    destruct ys; [|simpl in Hlen; lia]. constructor; [exact Hy|constructor].
Qed.

Lemma sorted_fold_raise (xs : list A) (e : exn) :
  fold_left (fun acc x =>
               match acc with
               | Raise e => Raise e
               | Ok s => Py.insert key x s
               end) xs (Raise e) = Raise e.
Proof. induction xs as [|x xs IH]; [reflexivity|exact IH]. Qed.

Lemma sorted_fold_ok (xs acc r : list A) :
  comparable key acc ->
  fold_left (fun acc x =>
               match acc with
               | Raise e => Raise e
               | Ok s => Py.insert key x s
               end) xs (Ok acc) = Ok r ->
  Permutation (acc ++ xs) r /\ comparable key r.
Proof.
  revert acc. induction xs as [|x xs IH]; intros acc Hc; simpl.
  - intros H. inversion H. subst. rewrite app_nil_r. auto.
  - destruct (Py.insert key x acc) as [s|e] eqn:E.
    + intros H. destruct (IH s (insert_ok_comparable x acc s Hc E) H)
        as [Hperm Hr].
      split; [|exact Hr].
      rewrite <- Hperm. rewrite <- (insert_ok_perm x acc s E).
      symmetry. apply Permutation_middle.
    + rewrite sorted_fold_raise. discriminate.
Qed.

Lemma sorted_fold_error (xs : list A) (acc : result (list A)) (e : exn) :
  (forall e', acc = Raise e' -> e' = TypeError) ->
  fold_left (fun acc x =>
               match acc with
               | Raise e => Raise e
               | Ok s => Py.insert key x s
               end) xs acc = Raise e ->
  e = TypeError.
Proof.
  revert acc. induction xs as [|x xs IH]; intros acc Hacc; simpl.
  - intros H. now apply Hacc.
  - apply IH. destruct acc as [s|e0].
    + intros e' He'. now apply (insert_raise x s e').
    + exact Hacc.
Qed.

(** Whenever [sorted] returns, it returns a rearrangement of its argument;
    and if the argument has two elements or more, they all have a key and
    the result is in ascending order. *)
Lemma sorted_ok (xs r : list A) :
  Py.sorted key xs = Ok r ->
  Permutation xs r
  /\ ((2 <= List.length xs)%nat ->
      Forall (has_key key) xs /\ StronglySorted (key_le key) r).
Proof.
  intros H. unfold Py.sorted in H.
  destruct (sorted_fold_ok xs [] r) as [Hperm Hc]; [left; simpl; lia|exact H|].
  simpl in Hperm. split; [exact Hperm|].
  intros Hlen.
  assert (Hkeys : Forall (has_key key) xs).
  { destruct Hc as [Hshort|Hall].
    - rewrite <- (Permutation_length Hperm) in Hshort. lia.
    - eapply Permutation_Forall; [symmetry; exact Hperm|exact Hall]. }
  split; [exact Hkeys|].
  destruct (sorted_spec key xs Hkeys) as (r' & Hr' & _ & Hs).
  unfold Py.sorted in Hr'. rewrite H in Hr'. inversion Hr'. subst. exact Hs.
Qed.

(** The only error of [sorted] is TypeError. *)
Lemma sorted_raise (xs : list A) (e : exn) :
  Py.sorted key xs = Raise e -> e = TypeError.
Proof.
  unfold Py.sorted. apply sorted_fold_error. discriminate.
Qed.

(** A list of two or more elements, one of them without a key, cannot be
    sorted. *)
Lemma sorted_missing_key (xs : list A) :
  (2 <= List.length xs)%nat ->
  Exists (fun a => key a = None) xs ->
  Py.sorted key xs = Raise TypeError.
Proof.
  intros Hlen Hex. destruct (Py.sorted key xs) as [r|e] eqn:E.
  - destruct (sorted_ok xs r E) as [_ Hk]. destruct (Hk Hlen) as [Hall _].
    rewrite Exists_exists in Hex. destruct Hex as (a & Hin & Ha).
    rewrite Forall_forall in Hall. elim (Hall a Hin). exact Ha.
  - f_equal. exact (sorted_raise xs e E).
Qed.

(** A list of at most one element is returned as it is, key or not. *)
Lemma sorted_short (xs : list A) :
  (List.length xs <= 1)%nat -> Py.sorted key xs = Ok xs.
Proof.
  destruct xs as [|x [|y ys]]; simpl; intros H; [reflexivity|reflexivity|lia].
Qed.

Lemma insert_last (x : A) (xs : list A) :
  Forall (fun y => key_le key y x) xs ->
  Py.insert key x xs = Ok (xs ++ [x]).
Proof.
  intros Hall. induction Hall as [|y ys Hy Hys IH]; [reflexivity|].
  simpl. destruct Hy as (ky & kx & Eky & Ekx & Hle).
  rewrite Ekx, Eky. simpl.
  assert (Hlt : String.ltb kx ky = false).
  { unfold ts_le, String.leb in Hle. unfold String.ltb.
    rewrite (String.compare_antisym ky kx) in Hle.
    destruct (String.compare kx ky); simpl in *; congruence. }
  rewrite Hlt, IH. reflexivity.
Qed.

End SortingAnyKeys.

Lemma StronglySorted_before {A : Type} (R : A -> A -> Prop) (l1 l2 : list A) (x : A) :
  StronglySorted R (l1 ++ x :: l2) -> Forall (fun y => R y x) l1.
Proof.
  induction l1 as [|y l1 IH]; simpl; intros H; [constructor|].
  apply StronglySorted_inv in H. destruct H as [Hs Hall].
  constructor; [|now apply IH].
  rewrite Forall_forall in Hall. apply Hall.
  apply in_or_app. right. now left.
Qed.

(** A list already in ascending order of its keys is returned as it is. *)
Lemma sorted_of_sorted {A : Type} (key : A -> option string) (xs : list A) :
  StronglySorted (key_le key) xs -> Py.sorted key xs = Ok xs.
Proof.
  unfold Py.sorted. change xs with ([] ++ xs) at 1 3.
  generalize (@nil A) as acc. induction xs as [|x xs IH]; intros acc Hs.
  - simpl. rewrite app_nil_r. reflexivity.
  - simpl. rewrite (insert_last key x acc (StronglySorted_before _ _ _ _ Hs)).
    change (x :: xs) with ([x] ++ xs). rewrite app_assoc. apply IH.
    rewrite <- app_assoc. exact Hs.
Qed.

(** ** The market-data client, continued *)

(** What [fetch_rsp_daily_bars] returns or raises, read off the answers of
    the outside world. *)
Lemma fetch_outcome (cfg : config) (w : world) (symbol : string) (limit : Z) :
  outcome (fetch_rsp_daily_bars cfg w symbol limit) =
    if Py.falsy (env_ALPACA_API_KEY_ID w) || Py.falsy (env_ALPACA_API_SECRET_KEY w)
    then Raise RuntimeError
    else match requests_get w with
         | Raise e => Raise e
         | Ok resp =>
             match raise_for_status resp with
             | Raise e => Raise e
             | Ok _ =>
                 match json resp with
                 | Raise e => Raise e
                 | Ok None => Ok []
                 | Ok (Some BarsNull) => Raise TypeError
                 | Ok (Some (BarsList bars)) => Py.sorted bar_t bars
                 end
             end
         end.
Proof.
  unfold fetch_rsp_daily_bars.
  destruct (_ || _); [reflexivity|].
  do 2 bind_ok.
  destruct (requests_get w) as [resp|e];
    [|now rewrite (outcome_bind_raise _ _ e)].
  do 2 bind_ok.
  destruct (raise_for_status resp) as [[]|e].
  2:{ apply outcome_bind_raise. unfold try_except, lift.
      destruct (is_Exception e); reflexivity. }
  bind_ok.
  destruct (json resp) as [data|e];
    [|now rewrite (outcome_bind_raise _ _ e)].
  bind_ok.
  destruct data as [[|bars]|].
  - now rewrite (outcome_bind_raise _ _ TypeError).
  - do 2 bind_ok. destruct bars as [|b bars']; [reflexivity|].
    destruct (Py.sorted bar_t (b :: bars')) as [series|e] eqn:E;
      [|now rewrite (outcome_bind_raise _ _ e)].
    bind_ok.
    destruct series as [|s series'].
    { destruct (sorted_ok bar_t _ _ E) as [Hperm _].
      apply Permutation_sym, Permutation_nil in Hperm. discriminate. }
    bind_ok.
    assert (Hlast : exists l, Py.last (s :: series') = Ok l).
    { unfold Py.last. destruct (rev (s :: series')) eqn:Er; [|eauto].
      apply (f_equal (@List.length bar)) in Er.
      rewrite length_rev in Er. discriminate. }
    destruct Hlast as [l Hl]. rewrite Hl.
    do 4 bind_ok.
    rewrite (outcome_bind_ok _ _ tt) by apply log_closes_outcome.
    reflexivity.
  - do 2 bind_ok. reflexivity.
Qed.

Ltac without_step :=
  apply without_bind; [try (repeat constructor; fail)|intros ? ?].

Lemma without_log_closes (f : event -> bool) (bs : list bar) :
  (forall lvl m, f (Log lvl m) = false) ->
  without f (trace (log_closes bs)).
Proof.
  intros Hf. induction bs as [|b bs IH]; [constructor|].
  cbn [log_closes]. apply without_bind; [|intros _ _; exact IH].
  constructor; [apply Hf|constructor].
Qed.

(** X1: [fetch_rsp_daily_bars] sends no request when one of the two API
    credentials is unset or empty, and raises RuntimeError without logging;
    otherwise it sends exactly one request, to the bars URL of the symbol
    with the limit given, whatever happens afterwards. *)
Theorem fetch_requests :
  forall cfg w symbol limit,
    (Py.falsy (env_ALPACA_API_KEY_ID w) || Py.falsy (env_ALPACA_API_SECRET_KEY w)
     = true ->
     fetch_rsp_daily_bars cfg w symbol limit = ([], Raise RuntimeError))
    /\ (Py.falsy (env_ALPACA_API_KEY_ID w) || Py.falsy (env_ALPACA_API_SECRET_KEY w)
        = false ->
        filter is_request (trace (fetch_rsp_daily_bars cfg w symbol limit))
        = [HttpGet (request_url cfg symbol) limit]).
Proof.
  intros cfg w symbol limit. unfold fetch_rsp_daily_bars. split; intros Hc.
  - rewrite Hc. reflexivity.
  - rewrite Hc.
    rewrite (trace_bind_ok _ _ tt) by reflexivity.
    rewrite (trace_bind_ok _ _ tt) by reflexivity.
    rewrite !filter_app.
    cbn [trace logger emit fst filter is_request app].
    fold (request_url cfg symbol). f_equal.
    apply without_filter.
    apply without_bind; [constructor|intros resp _].
    without_step.
    without_step.
    { destruct (raise_for_status resp) as [[]|e]; [constructor|].
      unfold try_except, lift. destruct (is_Exception e); repeat constructor. }
    apply without_bind; [constructor|intros data _].
    apply without_bind; [|intros bars _].
    { destruct data as [[|bs]|]; constructor. }
    without_step.
    destruct bars as [|b bs].
    + repeat without_step. constructor.
    + repeat without_step; [|constructor].
      apply without_log_closes. reflexivity.
Qed.

Lemma fetch_requests_witness :
  filter is_request
    (trace (fetch_rsp_daily_bars default_config
              (world_answering (Some (BarsList unsorted_bars))) "RSP" 960))
  = [HttpGet (request_url default_config "RSP") 960].
Proof.
  apply (proj2 (fetch_requests default_config
                  (world_answering (Some (BarsList unsorted_bars))) "RSP" 960)).
  reflexivity.
Defined.

(** X2: when the API answers with a status from 400 to 599,
    [fetch_rsp_daily_bars] logs the response body at level ERROR and raises
    HTTPError; the body is not decoded. *)
Theorem fetch_http_error :
  forall cfg w symbol limit resp,
    Py.falsy (env_ALPACA_API_KEY_ID w) = false ->
    Py.falsy (env_ALPACA_API_SECRET_KEY w) = false ->
    requests_get w = Ok resp ->
    400 <= status_code resp < 600 ->
    fetch_rsp_daily_bars cfg w symbol limit =
      ([Log INFO (MsgRequesting limit symbol (request_url cfg symbol));
        HttpGet (request_url cfg symbol) limit;
        Log DEBUG (MsgResponseStatus (status_code resp));
        Log ERROR (MsgErrorResponse (text resp))],
       Raise HTTPError).
Proof.
  intros cfg w symbol limit resp Hkey Hsecret Hget Hstatus.
  unfold fetch_rsp_daily_bars. rewrite Hkey, Hsecret, Hget.
  unfold raise_for_status.
  assert (E1 : (400 <=? status_code resp) = true) by (apply Z.leb_le; lia).
  assert (E2 : (status_code resp <? 600) = true) by (apply Z.ltb_lt; lia).
  simpl orb. cbv iota. unfold logger, emit, lift, bind, try_except, raise.
  rewrite E1, E2. reflexivity.
Qed.

Lemma fetch_http_error_witness :
  fetch_rsp_daily_bars default_config (world_responding (Ok response_forbidden))
    "RSP" 960 =
    ([Log INFO (MsgRequesting 960 "RSP" (request_url default_config "RSP"));
      HttpGet (request_url default_config "RSP") 960;
      Log DEBUG (MsgResponseStatus 403);
      Log ERROR (MsgErrorResponse "forbidden")],
     Raise HTTPError).
Proof.
  apply (fetch_http_error default_config
           (world_responding (Ok response_forbidden)) "RSP" 960
           response_forbidden).
  - reflexivity.
  - reflexivity.
  - reflexivity.
  - simpl. lia.
Defined.

(** X3: when the decoded body has no member [bars], or an empty list of
    bars, [fetch_rsp_daily_bars] logs a warning and returns the empty list:
    the two answers are not told apart and neither is an error. *)
Theorem fetch_no_bars :
  forall cfg w symbol limit resp,
    Py.falsy (env_ALPACA_API_KEY_ID w) = false ->
    Py.falsy (env_ALPACA_API_SECRET_KEY w) = false ->
    requests_get w = Ok resp ->
    raise_for_status resp = Ok tt ->
    json resp = Ok None \/ json resp = Ok (Some (BarsList [])) ->
    fetch_rsp_daily_bars cfg w symbol limit =
      ([Log INFO (MsgRequesting limit symbol (request_url cfg symbol));
        HttpGet (request_url cfg symbol) limit;
        Log DEBUG (MsgResponseStatus (status_code resp));
        Log INFO (MsgReceived 0 symbol);
        Log WARNING (MsgNoBarsReturned symbol)],
       Ok []).
Proof.
  intros cfg w symbol limit resp Hkey Hsecret Hget Hstatus Hjson.
  unfold fetch_rsp_daily_bars. rewrite Hkey, Hsecret, Hget.
  simpl orb. cbv iota. unfold logger, emit, lift, bind, try_except, raise, ret.
  rewrite Hstatus. destruct Hjson as [Hjson|Hjson]; rewrite Hjson; reflexivity.
Qed.

Lemma fetch_no_bars_witness :
  let resp := {| status_code := 200; text := ""; json := Ok None |} in
  fetch_rsp_daily_bars default_config (world_responding (Ok resp)) "RSP" 960 =
    ([Log INFO (MsgRequesting 960 "RSP" (request_url default_config "RSP"));
      HttpGet (request_url default_config "RSP") 960;
      Log DEBUG (MsgResponseStatus 200);
      Log INFO (MsgReceived 0 "RSP");
      Log WARNING (MsgNoBarsReturned "RSP")],
     Ok []).
Proof.
  cbv zeta.
  apply (fetch_no_bars default_config _ "RSP" 960
           {| status_code := 200; text := ""; json := Ok None |}).
  - reflexivity.
  - reflexivity.
  - reflexivity.
  - reflexivity.
  - left. reflexivity.
Defined.

(** X4: when the member [bars] of the decoded body is null,
    [fetch_rsp_daily_bars] raises TypeError at [len(bars)], before the
    emptiness test: a null is not taken for an empty list. *)
Theorem fetch_bars_null :
  forall cfg w symbol limit resp,
    Py.falsy (env_ALPACA_API_KEY_ID w) = false ->
    Py.falsy (env_ALPACA_API_SECRET_KEY w) = false ->
    requests_get w = Ok resp ->
    raise_for_status resp = Ok tt ->
    json resp = Ok (Some BarsNull) ->
    fetch_rsp_daily_bars cfg w symbol limit =
      ([Log INFO (MsgRequesting limit symbol (request_url cfg symbol));
        HttpGet (request_url cfg symbol) limit;
        Log DEBUG (MsgResponseStatus (status_code resp))],
       Raise TypeError).
Proof.
  intros cfg w symbol limit resp Hkey Hsecret Hget Hstatus Hjson.
  unfold fetch_rsp_daily_bars. rewrite Hkey, Hsecret, Hget.
  simpl orb. cbv iota. unfold logger, emit, lift, bind, try_except, raise, ret.
  rewrite Hstatus, Hjson. reflexivity.
Qed.

Lemma fetch_bars_null_witness :
  let resp := {| status_code := 200; text := ""; json := Ok (Some BarsNull) |} in
  fetch_rsp_daily_bars default_config (world_responding (Ok resp)) "RSP" 960 =
    ([Log INFO (MsgRequesting 960 "RSP" (request_url default_config "RSP"));
      HttpGet (request_url default_config "RSP") 960;
      Log DEBUG (MsgResponseStatus 200)],
     Raise TypeError).
Proof.
  cbv zeta.
  apply (fetch_bars_null default_config _ "RSP" 960
           {| status_code := 200; text := ""; json := Ok (Some BarsNull) |}).
  - reflexivity.
  - reflexivity.
  - reflexivity.
  - reflexivity.
  - reflexivity.
Defined.

(** X5: whenever [fetch_rsp_daily_bars] returns a series, the request was
    answered with a status outside 400..599, the series is a rearrangement
    of the bars of the body (none dropped, none added; no bars when the
    member is absent), and a series of two bars or more has a timestamp on
    every bar and is in ascending order of timestamp. *)
Theorem fetch_sound :
  forall cfg w symbol limit series,
    outcome (fetch_rsp_daily_bars cfg w symbol limit) = Ok series ->
    exists resp bars,
      requests_get w = Ok resp
      /\ raise_for_status resp = Ok tt
      /\ (json resp = Ok (Some (BarsList bars))
          \/ (json resp = Ok None /\ bars = []))
      /\ Permutation bars series
      /\ ((2 <= List.length series)%nat ->
          Forall (has_key bar_t) series
          /\ StronglySorted (key_le bar_t) series).
Proof.
  intros cfg w symbol limit series H. rewrite fetch_outcome in H.
  destruct (_ || _); [discriminate|].
  destruct (requests_get w) as [resp|e] eqn:Hget; [|discriminate].
  destruct (raise_for_status resp) as [[]|e] eqn:Hstatus; [|discriminate].
  destruct (json resp) as [[[|bars]|]|e] eqn:Hjson; try discriminate.
  - destruct (sorted_ok bar_t bars series H) as [Hperm Hs].
    exists resp, bars.
    split; [reflexivity|]. split; [exact Hstatus|].
    split; [left; exact Hjson|]. split; [exact Hperm|].
    intros Hlen. rewrite <- (Permutation_length Hperm) in Hlen.
    destruct (Hs Hlen) as [Hkeys Hsorted].
    split; [|exact Hsorted].
    eapply Permutation_Forall; [exact Hperm|exact Hkeys].
  - inversion H. subst. exists resp, [].
    split; [reflexivity|]. split; [exact Hstatus|].
    split; [right; split; [exact Hjson|reflexivity]|]. split; [constructor|].
    simpl. lia.
Qed.

Lemma fetch_sound_witness :
  exists resp bars,
    requests_get (world_answering (Some (BarsList unsorted_bars))) = Ok resp
    /\ raise_for_status resp = Ok tt
    /\ (json resp = Ok (Some (BarsList bars))
        \/ (json resp = Ok None /\ bars = []))
    /\ Permutation bars three_bars
    /\ ((2 <= List.length three_bars)%nat ->
        Forall (has_key bar_t) three_bars
        /\ StronglySorted (key_le bar_t) three_bars).
Proof.
  apply (fetch_sound default_config
           (world_answering (Some (BarsList unsorted_bars))) "RSP" 960).
  reflexivity.
Defined.

(** X6: when the body lists two bars or more and one of them has no
    timestamp, [fetch_rsp_daily_bars] raises TypeError: the sort cannot
    compare the missing key. *)
Theorem fetch_missing_timestamp :
  forall cfg w symbol limit resp bars,
    Py.falsy (env_ALPACA_API_KEY_ID w) = false ->
    Py.falsy (env_ALPACA_API_SECRET_KEY w) = false ->
    requests_get w = Ok resp ->
    raise_for_status resp = Ok tt ->
    json resp = Ok (Some (BarsList bars)) ->
    (2 <= List.length bars)%nat ->
    Exists (fun b => bar_t b = None) bars ->
    outcome (fetch_rsp_daily_bars cfg w symbol limit) = Raise TypeError.
Proof.
  intros cfg w symbol limit resp bars Hkey Hsecret Hget Hstatus Hjson Hlen Hex.
  rewrite fetch_outcome, Hkey, Hsecret, Hget, Hstatus, Hjson. simpl orb.
  cbv iota. now apply sorted_missing_key.
Qed.

Lemma fetch_missing_timestamp_witness :
  outcome (fetch_rsp_daily_bars default_config
             (world_responding (Ok response_undated)) "RSP" 960)
  = Raise TypeError.
Proof.
  apply (fetch_missing_timestamp default_config
           (world_responding (Ok response_undated)) "RSP" 960
           response_undated
           [bar_at "2024-01-02T05:00:00Z" 90; bar_undated]).
  - reflexivity.
  - reflexivity.
  - reflexivity.
  - reflexivity.
  - reflexivity.
  - simpl. lia.
  - apply Exists_cons_tl. apply Exists_cons_hd. reflexivity.
Defined.

(** X7: a body whose bars are already in ascending order of timestamp is
    returned unchanged: bars with equal timestamps keep the order in which
    the API sent them, and a single bar is returned as it is, with or
    without a timestamp. *)
Theorem fetch_sorted_input_unchanged :
  forall cfg w symbol limit resp bars,
    Py.falsy (env_ALPACA_API_KEY_ID w) = false ->
    Py.falsy (env_ALPACA_API_SECRET_KEY w) = false ->
    requests_get w = Ok resp ->
    raise_for_status resp = Ok tt ->
    json resp = Ok (Some (BarsList bars)) ->
    StronglySorted (key_le bar_t) bars ->
    outcome (fetch_rsp_daily_bars cfg w symbol limit) = Ok bars.
Proof.
  intros cfg w symbol limit resp bars Hkey Hsecret Hget Hstatus Hjson Hs.
  rewrite fetch_outcome, Hkey, Hsecret, Hget, Hstatus, Hjson. simpl orb.
  cbv iota. now apply sorted_of_sorted.
Qed.

Lemma three_bars_sorted : StronglySorted (key_le bar_t) three_bars.
Proof.
  unfold three_bars.
  repeat (constructor; [|repeat (constructor;
    try (eexists; eexists; split; [reflexivity|split; [reflexivity|reflexivity]]))]).
  constructor.
Qed.

Lemma fetch_sorted_input_unchanged_witness :
  outcome (fetch_rsp_daily_bars default_config
             (world_responding (Ok (response_bars (Some (BarsList three_bars)))))
             "RSP" 960)
  = Ok three_bars.
Proof.
  apply (fetch_sorted_input_unchanged default_config
           (world_responding (Ok (response_bars (Some (BarsList three_bars)))))
           "RSP" 960 (response_bars (Some (BarsList three_bars))) three_bars).
  - reflexivity.
  - reflexivity.
  - reflexivity.
  - reflexivity.
  - reflexivity.
  - exact three_bars_sorted.
Defined.

(** ** The moving average, continued *)

Lemma closes_of_app (bars bars' : list bar) :
  closes_of (bars ++ bars') = closes_of bars ++ closes_of bars'.
Proof.
  induction bars as [|b bars IH]; [reflexivity|].
  simpl. destruct (bar_c b); [simpl; f_equal|]; exact IH.
Qed.

Lemma closes_of_filter (bars : list bar) :
  closes_of (filter has_close bars) = closes_of bars.
Proof.
  induction bars as [|b bars IH]; [reflexivity|].
  unfold has_close at 1. simpl. destruct (bar_c b) eqn:E; simpl.
  - rewrite E. f_equal. exact IH.
  - exact IH.
Qed.

(** Of a non-empty series [compute_moving_average] only uses the closes. *)
Lemma compute_moving_average_closes (cfg : config) (bars bars' : list bar)
    (window : Z) :
  bars <> [] -> bars' <> [] ->
  closes_of bars = closes_of bars' ->
  compute_moving_average cfg bars window
  = compute_moving_average cfg bars' window.
Proof.
  intros Hne Hne' Hc.
  destruct bars as [|b bars]; [congruence|].
  destruct bars' as [|b' bars']; [congruence|].
  unfold compute_moving_average. rewrite Hc. reflexivity.
Qed.

Lemma last_elements_app {A : Type} (n : nat) (xs ys : list A) :
  (n <= List.length ys)%nat ->
  last_elements n (xs ++ ys) = last_elements n ys.
Proof.
  intros Hn. rewrite !last_elements_skipn, length_app.
  replace (List.length xs + List.length ys - n)%nat
    with (List.length xs + (List.length ys - n))%nat by lia.
  rewrite skipn_app.
  replace (List.length xs + (List.length ys - n) - List.length xs)%nat
    with (List.length ys - n)%nat by lia.
  rewrite skipn_all2 by lia. reflexivity.
Qed.

(** X8: bars older than the window do not count: when the window is between
    1 and the number of closes of the recent bars, putting older bars before
    them changes neither the moving average nor what is logged. *)
Theorem compute_moving_average_older_bars :
  forall cfg older recent window,
    1 <= window <= Py.len (closes_of recent) ->
    compute_moving_average cfg (older ++ recent) window
    = compute_moving_average cfg recent window.
Proof.
  intros cfg older recent window Hw.
  assert (Hw' : 1 <= window <= Py.len (closes_of (older ++ recent))).
  { rewrite closes_of_app. unfold Py.len in *. rewrite length_app. lia. }
  destruct (compute_moving_average_within cfg (older ++ recent) window Hw')
    as [_ ->].
  destruct (compute_moving_average_within cfg recent window Hw) as [_ ->].
  rewrite closes_of_app, last_elements_app; [reflexivity|].
  unfold Py.len in Hw. lia.
Qed.

Lemma compute_moving_average_older_bars_witness :
  compute_moving_average default_config
    ([bar_at "2023-12-29T05:00:00Z" 50] ++ three_bars) 3
  = compute_moving_average default_config three_bars 3.
Proof.
  apply compute_moving_average_older_bars.
  vm_compute. split; discriminate.
Defined.

(** X9: bars without a close field are skipped: when some bar has one,
    [compute_moving_average] gives the same result and the same log on the
    series and on the series without those bars, for every window. *)
Theorem compute_moving_average_skips_missing_closes :
  forall cfg bars window,
    (exists b, In b bars /\ has_close b = true) ->
    compute_moving_average cfg bars window
    = compute_moving_average cfg (filter has_close bars) window.
Proof.
  intros cfg bars window (b & Hin & Hb).
  apply compute_moving_average_closes.
  - intros ->. exact Hin.
  - intros Hnil. assert (Hf : In b (filter has_close bars))
      by (apply filter_In; auto).
    rewrite Hnil in Hf. exact Hf.
  - symmetry. apply closes_of_filter.
Qed.

Lemma compute_moving_average_skips_missing_closes_witness :
  compute_moving_average default_config
    (bar_without_close "2024-01-01T05:00:00Z" :: three_bars) 3
  = compute_moving_average default_config
      (filter has_close (bar_without_close "2024-01-01T05:00:00Z" :: three_bars))
      3.
Proof.
  apply compute_moving_average_skips_missing_closes.
  exists (bar_at "2024-01-02T05:00:00Z" 90). split.
  - right. left. reflexivity.
  - reflexivity.
Defined.

Lemma compute_moving_average_at_zero (cfg : config) (bars : list bar) :
  bars <> [] ->
  compute_moving_average cfg bars 0 = ([], Raise ZeroDivisionError).
Proof.
  intros Hne. destruct bars as [|b bars]; [congruence|].
  unfold compute_moving_average.
  assert (E : (Py.len (closes_of (b :: bars)) <? 0) = false).
  { apply Z.ltb_ge. unfold Py.len. lia. }
  rewrite E. reflexivity.
Qed.

(** X10: a window of zero is not guarded: on every non-empty series
    [compute_moving_average] raises ZeroDivisionError, without shrinking the
    window and without logging. *)
Theorem compute_moving_average_zero_window :
  forall cfg bars,
    bars <> [] ->
    compute_moving_average cfg bars 0 = ([], Raise ZeroDivisionError).
Proof.
  intros cfg bars Hne. exact (compute_moving_average_at_zero cfg bars Hne).
Qed.

Lemma compute_moving_average_zero_window_witness :
  compute_moving_average default_config three_bars 0
  = ([], Raise ZeroDivisionError).
Proof.
  apply compute_moving_average_zero_window. discriminate.
Defined.

Lemma compute_moving_average_below_zero :
  forall cfg bars window,
    bars <> [] ->
    window < 0 ->
    let rest := skipn (Z.to_nat (- window)) (closes_of bars) in
    let value :=
      match rest with
      | [] => (-0)%float
      | _ :: _ => (fold_left PrimFloat.add rest 0 / Py.float_of_int window)%float
      end in
    compute_moving_average cfg bars window =
      ([Log INFO (MsgComputedMA window (ALPACA_SYMBOL cfg) value)], Ok value).
Proof.
  intros cfg bars window Hne Hw rest value.
  destruct bars as [|b bars]; [congruence|].
  unfold compute_moving_average.
  set (closes := closes_of (b :: bars)) in *.
  assert (E : (Py.len closes <? window) = false).
  { apply Z.ltb_ge. unfold Py.len. lia. }
  rewrite E. unfold logger, emit, ret, lift, bind.
  assert (Hslice : Py.slice_from closes (- window) = rest).
  { unfold Py.slice_from, rest.
    assert (E' : (- window <? 0) = false) by (apply Z.ltb_ge; lia).
    rewrite E'.
    destruct (Z.leb_spec (- window) (Py.len closes)) as [Hle|Hgt].
    - rewrite Z.min_l by lia. reflexivity.
    - rewrite Z.min_r by lia. unfold Py.len in *.
      rewrite !skipn_all2 by lia. reflexivity. }
  rewrite Hslice. unfold Py.truediv, Py.sum, value.
  assert (Ez : (window =? 0) = false) by (apply Z.eqb_neq; lia).
  assert (En : (window <? 0) = true) by (apply Z.ltb_lt; lia).
  rewrite Ez. destruct rest; [rewrite En|]; reflexivity.
Qed.

(** X11: a negative window is not refused: on a non-empty series
    [compute_moving_average] raises nothing and does not shrink the window;
    [closes[-window:]] then drops the first [-window] closes, and the result
    is the sum of the remaining ones divided by the negative window, or
    [-0.0] when none remains. *)
Theorem compute_moving_average_negative_window :
  forall cfg bars window,
    bars <> [] ->
    window < 0 ->
    let rest := skipn (Z.to_nat (- window)) (closes_of bars) in
    let value :=
      match rest with
      | [] => (-0)%float
      | _ :: _ => (fold_left PrimFloat.add rest 0 / Py.float_of_int window)%float
      end in
    compute_moving_average cfg bars window =
      ([Log INFO (MsgComputedMA window (ALPACA_SYMBOL cfg) value)], Ok value).
Proof.
  intros cfg bars window Hne Hw.
  exact (compute_moving_average_below_zero cfg bars window Hne Hw).
Qed.

Lemma compute_moving_average_negative_window_witness :
  compute_moving_average default_config three_bars (-1) =
    ([Log INFO (MsgComputedMA (-1) "RSP" (-210))], Ok (-210)%float).
Proof.
  refine (compute_moving_average_negative_window default_config three_bars (-1) _ _).
  - discriminate.
  - reflexivity.
Defined.

(** ** One cycle, continued *)

Lemma filter_trace_bind {A B : Type} (f : event -> bool) (m : M A) (k : A -> M B) :
  filter f (trace (bind m k)) =
    filter f (trace m)
    ++ match outcome m with
       | Ok a => filter f (trace (k a))
       | Raise _ => []
       end.
Proof.
  destruct (outcome m) as [a|e] eqn:E.
  - rewrite (trace_bind_ok m k a E). apply filter_app.
  - rewrite (trace_bind_raise m k e E), app_nil_r. reflexivity.
Qed.

Section TracesOfTheHelpers.

Variable f : event -> bool.
Hypothesis f_log : forall lvl m, f (Log lvl m) = false.

Lemma without_logger (lvl : level) (m : message) :
  without f (trace (logger lvl m)).
Proof. constructor; [apply f_log|constructor]. Qed.

Lemma without_lift {A : Type} (r : result A) : without f (trace (lift r)).
Proof. constructor. Qed.

Lemma without_get_gspread_client (w : world) :
  without f (trace (get_gspread_client w)).
Proof.
  unfold get_gspread_client. destruct (Py.falsy _); [constructor|].
  apply without_bind; [apply without_lift|intros _ _].
  apply without_bind; [apply without_logger|intros _ _]. constructor.
Qed.

Lemma without_get_dashboard_worksheet (cfg : config) (w : world) :
  without f (trace (get_dashboard_worksheet cfg w)).
Proof.
  unfold get_dashboard_worksheet.
  apply without_bind; [apply without_logger|intros _ _].
  apply without_bind; [apply without_lift|intros _ _].
  apply without_bind; [apply without_lift|intros _ _].
  apply without_bind; [apply without_logger|intros _ _]. constructor.
Qed.

Lemma without_compute_moving_average (cfg : config) (bars : list bar) (window : Z) :
  without f (trace (compute_moving_average cfg bars window)).
Proof.
  unfold compute_moving_average. destruct bars as [|b bars]; [constructor|].
  apply without_bind; [|intros window' _].
  { destruct (_ <? _); [|constructor].
    apply without_bind; [apply without_logger|intros _ _]. constructor. }
  apply without_bind; [apply without_lift|intros ma _].
  apply without_bind; [apply without_logger|intros _ _]. constructor.
Qed.

Lemma without_classify_trend (cfg : config) (last_price ma_value : float) :
  without f (trace (classify_trend cfg last_price ma_value)).
Proof.
  unfold classify_trend.
  apply without_bind; [apply without_lift|intros q _].
  apply without_bind; [apply without_logger|intros _ _]. constructor.
Qed.

Hypothesis f_request : forall url limit, f (HttpGet url limit) = false.

Lemma without_fetch_rsp_daily_bars (cfg : config) (w : world)
    (symbol : string) (limit : Z) :
  without f (trace (fetch_rsp_daily_bars cfg w symbol limit)).
Proof.
  unfold fetch_rsp_daily_bars.
  destruct (_ || _); [constructor|].
  apply without_bind; [apply without_logger|intros _ _].
  apply without_bind; [|intros _ _].
  { constructor; [apply f_request|constructor]. }
  apply without_bind; [apply without_lift|intros resp _].
  apply without_bind; [apply without_logger|intros _ _].
  apply without_bind; [|intros _ _].
  { destruct (raise_for_status resp) as [[]|e]; [constructor|].
    unfold try_except, lift. destruct (is_Exception e); [|constructor].
    constructor; [apply f_log|constructor]. }
  apply without_bind; [apply without_lift|intros data _].
  apply without_bind; [|intros bars _].
  { destruct data as [[|bs]|]; constructor. }
  apply without_bind; [apply without_logger|intros _ _].
  destruct bars as [|b bs].
  - apply without_bind; [apply without_logger|intros _ _]. constructor.
  - apply without_bind; [apply without_lift|intros series _].
    apply without_bind; [apply without_lift|intros first_bar _].
    apply without_bind; [apply without_lift|intros last_bar _].
    do 3 (apply without_bind; [apply without_logger|intros _ _]).
    apply without_bind; [|intros _ _; constructor].
    apply without_log_closes. exact f_log.
Qed.

End TracesOfTheHelpers.

(** [classify_trend] returns one of the three labels. *)
Lemma classify_trend_labels (cfg : config) (last_price ma_value : float)
    (label : string) (diff : float) :
  outcome (classify_trend cfg last_price ma_value) = Ok (label, diff) ->
  In label labels.
Proof.
  unfold classify_trend, Py.float_div.
  destruct (PrimFloat.eqb ma_value 0); [discriminate|].
  unfold lift, logger, emit, ret, bind, outcome, snd.
  intros H. inversion H. unfold labels.
  destruct (_ <? _)%float; [now left|].
  destruct (_ <=? _)%float; [right; now left|right; right; now left].
Qed.

(** Whatever the spreadsheet answers, the last step updates the target cell
    with the label at most once, and no other cell. *)
Lemma publish_label_updates (cfg : config) (w : world) (label : string)
    (diff_pct : float) :
  filter is_publish (trace (publish_label cfg w label diff_pct)) = []
  \/ filter is_publish (trace (publish_label cfg w label diff_pct))
     = [SheetUpdate (TARGET_CELL cfg) label].
Proof.
  unfold publish_label, update_dashboard_cell.
  destruct (ws_acell w) as [v|e]; [|destruct (is_Exception e) eqn:Ee].
  - right. destruct (ws_update w) as [[]|e']; reflexivity.
  - right. unfold try_except, emit, lift, bind. rewrite Ee.
    destruct (ws_update w) as [[]|e']; reflexivity.
  - left. unfold try_except, emit, lift, bind. rewrite Ee. reflexivity.
Qed.

Lemma at_most_one_label_bind (cfg : config) {A B : Type} (m : M A) (k : A -> M B) :
  without is_publish (trace m) ->
  (forall a, outcome m = Ok a ->
             at_most_one_label cfg (filter is_publish (trace (k a)))) ->
  at_most_one_label cfg (filter is_publish (trace (bind m k))).
Proof.
  intros Hm Hk. rewrite filter_trace_bind, (without_filter _ _ Hm). simpl.
  destruct (outcome m) as [a|e]; [now apply Hk|now left].
Qed.

(** X12: in every cycle, whatever the outside world answers, [run_once]
    updates the spreadsheet at most once, and only the target cell with one
    of the labels WEAK, MODERATE and STRONG. *)
Theorem run_once_updates_only_target_cell :
  forall cfg w,
    at_most_one_label cfg (filter is_publish (trace (run_once cfg w))).
Proof.
  intros cfg w. rewrite run_once_unfold.
  apply at_most_one_label_bind; [now apply without_logger|intros _ _].
  apply at_most_one_label_bind;
    [now apply without_get_gspread_client|intros _ _].
  apply at_most_one_label_bind;
    [now apply without_get_dashboard_worksheet|intros _ _].
  apply at_most_one_label_bind;
    [now apply without_fetch_rsp_daily_bars|intros bars _].
  unfold analyse_and_publish. destruct bars as [|b bars]; [now left|].
  apply at_most_one_label_bind;
    [now apply without_compute_moving_average|intros ma _].
  apply at_most_one_label_bind; [constructor|intros last_bar _].
  apply at_most_one_label_bind; [|intros last_price _].
  { destruct (bar_c last_bar); constructor. }
  apply at_most_one_label_bind; [now apply without_logger|intros _ _].
  apply at_most_one_label_bind;
    [now apply without_classify_trend|intros [label diff] Hlabel].
  destruct (publish_label_updates cfg w label diff) as [-> | ->];
    [now left|right].
  exists label. split; [|reflexivity].
  exact (classify_trend_labels _ _ _ _ _ Hlabel).
Qed.

Lemma run_once_after_fetch (cfg : config) (w : world) (bars : list bar) :
  outcome (get_gspread_client w) = Ok tt ->
  outcome (get_dashboard_worksheet cfg w) = Ok tt ->
  outcome (fetch_rsp_daily_bars cfg w (ALPACA_SYMBOL cfg) (MA_WINDOW cfg))
  = Ok bars ->
  run_once cfg w =
    ([Log INFO MsgCycleStart]
     ++ trace (get_gspread_client w)
     ++ trace (get_dashboard_worksheet cfg w)
     ++ trace (fetch_rsp_daily_bars cfg w (ALPACA_SYMBOL cfg) (MA_WINDOW cfg))
     ++ trace (analyse_and_publish cfg w bars),
     outcome (analyse_and_publish cfg w bars)).
Proof.
  intros Hclient Hws Hfetch. rewrite run_once_unfold.
  rewrite (M_eta (bind _ _)).
  rewrite (trace_bind_ok _ _ tt) by reflexivity.
  rewrite (trace_bind_ok _ _ tt Hclient).
  rewrite (trace_bind_ok _ _ tt Hws).
  rewrite (trace_bind_ok _ _ bars Hfetch).
  rewrite (outcome_bind_ok _ _ tt) by reflexivity.
  rewrite (outcome_bind_ok _ _ tt Hclient).
  rewrite (outcome_bind_ok _ _ tt Hws).
  rewrite (outcome_bind_ok _ _ bars Hfetch).
  reflexivity.
Qed.

(** The events before the analysis are logs and the request. *)
Lemma filter_run_once_after_fetch (f : event -> bool) (cfg : config)
    (w : world) (bars : list bar) :
  (forall lvl m, f (Log lvl m) = false) ->
  (forall url limit, f (HttpGet url limit) = false) ->
  outcome (get_gspread_client w) = Ok tt ->
  outcome (get_dashboard_worksheet cfg w) = Ok tt ->
  outcome (fetch_rsp_daily_bars cfg w (ALPACA_SYMBOL cfg) (MA_WINDOW cfg))
  = Ok bars ->
  filter f (trace (run_once cfg w))
  = filter f (trace (analyse_and_publish cfg w bars)).
Proof.
  intros Hlog Hreq Hclient Hws Hfetch.
  rewrite (run_once_after_fetch cfg w bars Hclient Hws Hfetch).
  cbn [trace fst]. rewrite !filter_app.
  rewrite (without_filter f (trace (get_gspread_client w)))
    by now apply without_get_gspread_client.
  rewrite (without_filter f (trace (get_dashboard_worksheet cfg w)))
    by now apply without_get_dashboard_worksheet.
  rewrite (without_filter f (trace (fetch_rsp_daily_bars _ _ _ _)))
    by now apply without_fetch_rsp_daily_bars.
  cbn [filter]. rewrite Hlog. reflexivity.
Qed.

(** The analysis up to the classification, when every step succeeds. *)
Lemma analyse_and_publish_classified (f : event -> bool) (cfg : config)
    (w : world) (bars : list bar) (ma : float) (last_bar : bar) (lp : float) :
  (forall lvl m, f (Log lvl m) = false) ->
  outcome (compute_moving_average cfg bars (MA_WINDOW cfg)) = Ok ma ->
  Py.last bars = Ok last_bar ->
  bar_c last_bar = Some lp ->
  PrimFloat.eqb ma 0 = false ->
  outcome (analyse_and_publish cfg w bars)
  = outcome (publish_label cfg w (label_by_thresholds lp ma) (diffPercent lp ma))
  /\ filter f (trace (analyse_and_publish cfg w bars))
     = filter f (trace (publish_label cfg w (label_by_thresholds lp ma)
                          (diffPercent lp ma))).
Proof.
  intros Hlog Hma Hlast Hc Hnz.
  destruct bars as [|b bars]; [discriminate Hlast|].
  unfold analyse_and_publish. split.
  - rewrite (outcome_bind_ok _ _ ma Hma). rewrite Hlast.
    rewrite (outcome_bind_ok _ _ last_bar) by reflexivity. rewrite Hc.
    do 2 bind_ok. rewrite (classify_trend_nonzero cfg lp ma Hnz).
    bind_ok. reflexivity.
  - rewrite (trace_bind_ok _ _ ma Hma), filter_app.
    rewrite (without_filter f (trace (compute_moving_average _ _ _)))
      by now apply without_compute_moving_average.
    rewrite Hlast.
    rewrite (trace_bind_ok _ _ last_bar) by reflexivity. rewrite Hc.
    rewrite (trace_bind_ok _ _ lp) by reflexivity.
    rewrite (trace_bind_ok _ _ tt) by reflexivity.
    rewrite (classify_trend_nonzero cfg lp ma Hnz).
    rewrite (trace_bind_ok _ _ (label_by_thresholds lp ma, diffPercent lp ma))
      by reflexivity.
    cbn [trace fst lift ret logger emit app filter]. rewrite !Hlog.
    reflexivity.
Qed.

Lemma publish_label_result (cfg : config) (w : world) (label : string)
    (diff_pct : float) :
  (forall e, ws_acell w = Raise e -> is_Exception e = true) ->
  outcome (publish_label cfg w label diff_pct) = ws_update w
  /\ filter is_sheet_access (trace (publish_label cfg w label diff_pct))
     = [SheetRead (TARGET_CELL cfg); SheetUpdate (TARGET_CELL cfg) label].
Proof.
  intros Hacell. unfold publish_label, update_dashboard_cell.
  destruct (ws_acell w) as [v|e] eqn:E.
  - destruct (ws_update w) as [[]|e']; split; reflexivity.
  - unfold try_except, emit, lift, bind. rewrite (Hacell e eq_refl).
    destruct (ws_update w) as [[]|e']; split; reflexivity.
Qed.

(** X13: when the set-up and the fetch succeed, the moving average of the
    fetched bars is computed and is not zero, and the last bar has a close,
    [run_once] reads the target cell once and then updates it once, with
    the label of that close against the average; its outcome is that of the
    update, so that a failed update is raised and a failed read of the
    previous value changes nothing. *)
Theorem run_once_publishes_classification :
  forall cfg w bars ma last_bar last_price,
    outcome (get_gspread_client w) = Ok tt ->
    outcome (get_dashboard_worksheet cfg w) = Ok tt ->
    outcome (fetch_rsp_daily_bars cfg w (ALPACA_SYMBOL cfg) (MA_WINDOW cfg))
    = Ok bars ->
    outcome (compute_moving_average cfg bars (MA_WINDOW cfg)) = Ok ma ->
    Py.last bars = Ok last_bar ->
    bar_c last_bar = Some last_price ->
    PrimFloat.eqb ma 0 = false ->
    (forall e, ws_acell w = Raise e -> is_Exception e = true) ->
    filter is_sheet_access (trace (run_once cfg w))
    = [SheetRead (TARGET_CELL cfg);
       SheetUpdate (TARGET_CELL cfg) (label_by_thresholds last_price ma)]
    /\ outcome (run_once cfg w) = ws_update w.
Proof.
  intros cfg w bars ma last_bar lp Hclient Hws Hfetch Hma Hlast Hc Hnz Hacell.
  destruct (publish_label_result cfg w (label_by_thresholds lp ma)
              (diffPercent lp ma) Hacell) as [Hout Htrace].
  destruct (analyse_and_publish_classified is_sheet_access cfg w bars ma
              last_bar lp (fun _ _ => eq_refl) Hma Hlast Hc Hnz)
    as [Hout' Htrace'].
  split.
  - rewrite (filter_run_once_after_fetch is_sheet_access cfg w bars); auto.
    rewrite Htrace'. exact Htrace.
  - rewrite (run_once_after_fetch cfg w bars Hclient Hws Hfetch).
    change (outcome (analyse_and_publish cfg w bars) = ws_update w).
    rewrite Hout'. exact Hout.
Qed.

Lemma run_once_publishes_classification_witness :
  filter is_sheet_access (trace (run_once default_config world_read_fails))
  = [SheetRead "T3"; SheetUpdate "T3" (label_by_thresholds 110 100)]
  /\ outcome (run_once default_config world_read_fails)
     = ws_update world_read_fails.
Proof.
  apply (run_once_publishes_classification default_config world_read_fails
           three_bars 100%float (bar_at "2024-01-04T05:00:00Z" 110) 110%float).
  - reflexivity.
  - reflexivity.
  - reflexivity.
  - reflexivity.
  - reflexivity.
  - reflexivity.
  - reflexivity.
  - intros e H. inversion H. reflexivity.
Defined.

Lemma reach_bind (f : event -> bool) (P : Prop) {A B : Type} (m : M A)
    (k : A -> M B) :
  without f (trace m) ->
  (forall a, outcome m = Ok a -> without f (trace (k a)) \/ P) ->
  without f (trace (bind m k)) \/ P.
Proof.
  intros Hm Hk. destruct (outcome m) as [a|e] eqn:E.
  - destruct (Hk a eq_refl) as [Hw|HP]; [left|now right].
    rewrite (trace_bind_ok m k a E). now apply without_app.
  - left. rewrite (trace_bind_raise m k e E). exact Hm.
Qed.

Lemma run_once_reaches_sheet (cfg : config) (w : world) :
  without is_sheet_access (trace (run_once cfg w))
  \/ analysis_succeeded cfg w.
Proof.
  rewrite run_once_unfold.
  apply reach_bind; [now apply without_logger|intros _ _].
  apply reach_bind; [now apply without_get_gspread_client|intros _ _].
  apply reach_bind; [now apply without_get_dashboard_worksheet|intros _ _].
  apply reach_bind; [now apply without_fetch_rsp_daily_bars|intros bars Hfetch].
  unfold analyse_and_publish. destruct bars as [|b bars].
  { left. repeat constructor. }
  apply reach_bind;
    [now apply without_compute_moving_average|intros ma Hma].
  apply reach_bind; [constructor|intros last_bar Hlast].
  apply reach_bind; [|intros last_price Hc].
  { destruct (bar_c last_bar); constructor. }
  apply reach_bind; [now apply without_logger|intros _ _].
  apply reach_bind;
    [now apply without_classify_trend|intros [label diff] Hlabel].
  right. exists (b :: bars), ma, last_bar, last_price.
  split; [exact Hfetch|]. split; [exact Hma|]. split; [exact Hlast|].
  split.
  - destruct (bar_c last_bar); [|discriminate Hc]. inversion Hc. reflexivity.
  - unfold classify_trend, Py.float_div in Hlabel.
    destruct (PrimFloat.eqb ma 0); [discriminate Hlabel|reflexivity].
Qed.

(** X14: [run_once] never reads or writes the spreadsheet cell unless the
    whole analysis has succeeded: the fetch returned bars, their moving
    average was computed and is not zero, and the last bar has a close. *)
Theorem run_once_sheet_access_after_analysis :
  forall cfg w ev,
    In ev (trace (run_once cfg w)) ->
    is_sheet_access ev = true ->
    analysis_succeeded cfg w.
Proof.
  intros cfg w ev Hin Hev.
  destruct (run_once_reaches_sheet cfg w) as [Hw|Hs]; [|exact Hs].
  elim (without_not_In _ _ ev Hw Hev Hin).
Qed.

Lemma run_once_sheet_access_after_analysis_witness :
  analysis_succeeded default_config
    (world_answering (Some (BarsList unsorted_bars))).
Proof.
  apply (run_once_sheet_access_after_analysis default_config
           (world_answering (Some (BarsList unsorted_bars)))
           (SheetUpdate "T3" "MODERATE")).
  - vm_compute. tauto.
  - reflexivity.
Defined.

Lemma classify_trend_zero_average_eq (cfg : config) (last_price ma_value : float) :
  PrimFloat.eqb ma_value 0 = true ->
  classify_trend cfg last_price ma_value = ([], Raise ZeroDivisionError).
Proof.
  intros Hz. unfold classify_trend, Py.float_div. rewrite Hz. reflexivity.
Qed.

(** X15: when the last of the fetched bars has no close field while the
    moving average could be computed from the others, [run_once] raises
    KeyError at [last_bar["c"]] and does not touch the spreadsheet. *)
Theorem run_once_last_bar_without_close :
  forall cfg w bars ma last_bar,
    outcome (get_gspread_client w) = Ok tt ->
    outcome (get_dashboard_worksheet cfg w) = Ok tt ->
    outcome (fetch_rsp_daily_bars cfg w (ALPACA_SYMBOL cfg) (MA_WINDOW cfg))
    = Ok bars ->
    outcome (compute_moving_average cfg bars (MA_WINDOW cfg)) = Ok ma ->
    Py.last bars = Ok last_bar ->
    bar_c last_bar = None ->
    outcome (run_once cfg w) = Raise KeyError
    /\ without is_sheet_access (trace (run_once cfg w)).
Proof.
  intros cfg w bars ma last_bar Hclient Hws Hfetch Hma Hlast Hc.
  split.
  - rewrite (run_once_after_fetch cfg w bars Hclient Hws Hfetch).
    change (outcome (analyse_and_publish cfg w bars) = Raise KeyError).
    destruct bars as [|b bars]; [discriminate Hlast|].
    unfold analyse_and_publish.
    rewrite (outcome_bind_ok _ _ ma Hma). rewrite Hlast.
    rewrite (outcome_bind_ok _ _ last_bar) by reflexivity. rewrite Hc.
    reflexivity.
  - destruct (run_once_reaches_sheet cfg w) as [Hw|Hs]; [exact Hw|].
    destruct Hs as (bars' & ma' & last' & lp & Hf & _ & Hl & Hc' & _).
    rewrite Hfetch in Hf. inversion Hf. subst bars'.
    rewrite Hlast in Hl. inversion Hl. subst last'. congruence.
Qed.

Lemma run_once_last_bar_without_close_witness :
  let w := world_answering (Some (BarsList bars_last_without_close)) in
  outcome (run_once default_config w) = Raise KeyError
  /\ without is_sheet_access (trace (run_once default_config w)).
Proof.
  apply (run_once_last_bar_without_close default_config
           (world_answering (Some (BarsList bars_last_without_close)))
           bars_last_without_close 90%float
           (bar_without_close "2024-01-03T05:00:00Z")).
  - reflexivity.
  - reflexivity.
  - reflexivity.
  - reflexivity.
  - reflexivity.
  - reflexivity.
Defined.

(** X16: when the moving average of the fetched bars is zero and the last
    bar has a close, so that the classification is reached, [run_once]
    raises ZeroDivisionError there and does not touch the spreadsheet. *)
Theorem run_once_zero_average :
  forall cfg w bars ma last_bar last_price,
    outcome (get_gspread_client w) = Ok tt ->
    outcome (get_dashboard_worksheet cfg w) = Ok tt ->
    outcome (fetch_rsp_daily_bars cfg w (ALPACA_SYMBOL cfg) (MA_WINDOW cfg))
    = Ok bars ->
    outcome (compute_moving_average cfg bars (MA_WINDOW cfg)) = Ok ma ->
    Py.last bars = Ok last_bar ->
    bar_c last_bar = Some last_price ->
    PrimFloat.eqb ma 0 = true ->
    outcome (run_once cfg w) = Raise ZeroDivisionError
    /\ without is_sheet_access (trace (run_once cfg w)).
Proof.
  intros cfg w bars ma last_bar lp Hclient Hws Hfetch Hma Hlast Hc Hz.
  split.
  - rewrite (run_once_after_fetch cfg w bars Hclient Hws Hfetch).
    change (outcome (analyse_and_publish cfg w bars) = Raise ZeroDivisionError).
    destruct bars as [|b bars]; [discriminate Hlast|].
    unfold analyse_and_publish.
    rewrite (outcome_bind_ok _ _ ma Hma). rewrite Hlast.
    rewrite (outcome_bind_ok _ _ last_bar) by reflexivity. rewrite Hc.
    do 2 bind_ok.
    rewrite (classify_trend_zero_average_eq cfg lp ma Hz). reflexivity.
  - destruct (run_once_reaches_sheet cfg w) as [Hw|Hs]; [exact Hw|].
    destruct Hs as (bars' & ma' & last' & lp' & Hf & Hm & _ & _ & Hnz).
    rewrite Hfetch in Hf. inversion Hf. subst bars'.
    rewrite Hma in Hm. inversion Hm. subst ma'. congruence.
Qed.

Lemma run_once_zero_average_witness :
  let w := world_answering (Some (BarsList bars_closing_at_zero)) in
  outcome (run_once default_config w) = Raise ZeroDivisionError
  /\ without is_sheet_access (trace (run_once default_config w)).
Proof.
  apply (run_once_zero_average default_config
           (world_answering (Some (BarsList bars_closing_at_zero)))
           bars_closing_at_zero 0%float
           (bar_at "2024-01-03T05:00:00Z" 0) 0%float).
  - reflexivity.
  - reflexivity.
  - reflexivity.
  - reflexivity.
  - reflexivity.
  - reflexivity.
  - reflexivity.
Defined.

(** X17: when the spreadsheet set-up fails (no service-account JSON, a
    refused authorisation, a spreadsheet or a tab that is not found),
    [run_once] raises that error and ends the cycle before the market-data
    request: no request is sent and the cell is neither read nor written. *)
Theorem run_once_setup_failure :
  forall cfg w e,
    outcome (get_gspread_client w) = Raise e
    \/ (outcome (get_gspread_client w) = Ok tt
        /\ outcome (get_dashboard_worksheet cfg w) = Raise e) ->
    outcome (run_once cfg w) = Raise e
    /\ without is_request (trace (run_once cfg w))
    /\ without is_sheet_access (trace (run_once cfg w)).
Proof.
  intros cfg w e H. rewrite run_once_unfold.
  assert (Htrace : forall f, (forall lvl m, f (Log lvl m) = false) ->
            without f
              (trace (logger INFO MsgCycleStart ;;;
                      get_gspread_client w ;;;
                      get_dashboard_worksheet cfg w ;;;
                      bars <- fetch_rsp_daily_bars cfg w (ALPACA_SYMBOL cfg)
                                (MA_WINDOW cfg) ;;
                      analyse_and_publish cfg w bars))).
  { intros f Hf. rewrite (trace_bind_ok _ _ tt) by reflexivity.
    apply without_app; [now apply without_logger|].
    destruct H as [Hclient|[Hclient Hws]].
    - rewrite (trace_bind_raise _ _ e Hclient).
      now apply without_get_gspread_client.
    - rewrite (trace_bind_ok _ _ tt Hclient).
      apply without_app; [now apply without_get_gspread_client|].
      rewrite (trace_bind_raise _ _ e Hws).
      now apply without_get_dashboard_worksheet. }
  split; [|split; apply Htrace; reflexivity].
  bind_ok. destruct H as [Hclient|[Hclient Hws]].
  - apply outcome_bind_raise. exact Hclient.
  - rewrite (outcome_bind_ok _ _ tt Hclient).
    apply outcome_bind_raise. exact Hws.
Qed.

Lemma run_once_setup_failure_witness :
  outcome (run_once default_config world_without_service_account)
  = Raise RuntimeError
  /\ without is_request (trace (run_once default_config
                                  world_without_service_account))
  /\ without is_sheet_access (trace (run_once default_config
                                       world_without_service_account)).
Proof.
  apply run_once_setup_failure. left. reflexivity.
Defined.

(** ** The scheduler loop, continued *)

Lemma main_loop_split (cfg : config) (worlds : nat -> world) (n m i : nat) :
  (forall k, (k < n)%nat ->
             sleep_succeeds cfg (worlds (i + k)%nat)
             /\ cycle_errors_only cfg (worlds (i + k)%nat)) ->
  main_loop cfg worlds i (n + m) =
    let (tr, st) := main_loop cfg worlds (i + n) m in
    (List.concat (map (fun k => cycle_events cfg (worlds k)) (seq i n)) ++ tr, st).
Proof.
  revert i. induction n as [|n IH]; intros i Hok.
  - simpl. rewrite Nat.add_0_r. destruct (main_loop cfg worlds i m). reflexivity.
  - cbn [Nat.add main_loop seq map List.concat].
    assert (H0 : sleep_succeeds cfg (worlds i) /\ cycle_errors_only cfg (worlds i)).
    { specialize (Hok 0%nat). rewrite Nat.add_0_r in Hok. apply Hok. lia. }
    destruct H0 as [Hs He].
    rewrite (main_iteration_caught cfg (worlds i) Hs He).
    rewrite (IH (S i)).
    + replace (S i + n)%nat with (i + S n)%nat by lia.
      destruct (main_loop cfg worlds (i + S n) m). rewrite app_assoc. reflexivity.
    + intros k Hk. replace (S i + k)%nat with (i + S k)%nat by lia.
      apply Hok. lia.
Qed.

(** X18: an exception that does not derive from Exception (KeyboardInterrupt,
    SystemExit) passes the handler of the loop: if cycle [n] is the first to
    raise one, and the sleeps after the cycles before it succeeded (an
    interval that [time.sleep] accepts, carried out by the operating
    system), the process ends with it in that cycle, after [n] full cycles,
    without logging it and without sleeping again. *)
Theorem main_stops_at_first_fatal :
  forall cfg worlds n m e,
    (forall k, (k < n)%nat -> sleep_succeeds cfg (worlds k)) ->
    (forall k, (k < n)%nat -> cycle_errors_only cfg (worlds k)) ->
    outcome (run_once cfg (worlds n)) = Raise e ->
    is_Exception e = false ->
    (n < m)%nat ->
    main cfg worlds m =
      (Log INFO (MsgBotStarting (SHEET_NAME cfg) (DASHBOARD_TAB_NAME cfg)
                   (TARGET_CELL cfg) (REFRESH_INTERVAL_SECONDS cfg))
       :: List.concat (map (fun k => cycle_events cfg (worlds k)) (seq 0 n))
       ++ trace (run_once cfg (worlds n)),
       Terminated e).
Proof.
  intros cfg worlds n m e Hsleep Herr Hraise Hfatal Hlt.
  unfold main. replace m with (n + S (m - S n))%nat by lia.
  rewrite (main_loop_split cfg worlds n (S (m - S n)) 0)
    by (intros k Hk; split; [apply Hsleep|apply Herr]; exact Hk).
  cbn [Nat.add main_loop]. unfold main_iteration.
  rewrite (M_eta (run_once cfg (worlds n))), Hraise.
  unfold try_except. rewrite Hfatal. reflexivity.
Qed.

Lemma main_stops_at_first_fatal_witness :
  main default_config
    (fun k => match k with
              | O => world_publish_fails
              | S _ => world_interrupted
              end) 5 =
    (Log INFO (MsgBotStarting "Active-Investing" "Dashboard" "T3" 3600)
     :: List.concat (map (fun k => cycle_events default_config
                               match k with
                               | O => world_publish_fails
                               | S _ => world_interrupted
                               end) (seq 0 1))
     ++ trace (run_once default_config world_interrupted),
     Terminated KeyboardInterrupt).
Proof.
  apply (main_stops_at_first_fatal default_config
           (fun k => match k with
                     | O => world_publish_fails
                     | S _ => world_interrupted
                     end) 1 5 KeyboardInterrupt).
  - intros k Hk. assert (k = 0%nat) by lia. subst k.
    split; [|reflexivity]. vm_compute. split; discriminate.
  - intros k Hk e H. assert (k = 0%nat) by lia. subst k.
    vm_compute in H. inversion H. reflexivity.
  - reflexivity.
  - reflexivity.
  - lia.
Defined.

(** X19: the sleep is outside the handler: with an interval that
    [time.sleep] refuses, the first cycle, whether it succeeded or raised an
    error, is followed by the log of the sleep and the process ends there,
    with ValueError for a negative interval down to -9223372036 and with
    OverflowError for an interval beyond 9223372036 on either side. *)
Theorem main_refused_interval_stops :
  forall cfg worlds m,
    ~ 0 <= REFRESH_INTERVAL_SECONDS cfg <= PyTime_MAX_SECONDS ->
    cycle_errors_only cfg (worlds 0%nat) ->
    (0 < m)%nat ->
    main cfg worlds m =
      (Log INFO (MsgBotStarting (SHEET_NAME cfg) (DASHBOARD_TAB_NAME cfg)
                   (TARGET_CELL cfg) (REFRESH_INTERVAL_SECONDS cfg))
       :: trace (run_once cfg (worlds 0%nat))
       ++ boundary_events (outcome (run_once cfg (worlds 0%nat)))
       ++ [Log INFO (MsgSleeping (REFRESH_INTERVAL_SECONDS cfg))],
       Terminated
         (if (REFRESH_INTERVAL_SECONDS cfg <? - PyTime_MAX_SECONDS)
             || (PyTime_MAX_SECONDS <? REFRESH_INTERVAL_SECONDS cfg)
          then OverflowError else ValueError)).
Proof.
  intros cfg worlds m Hrefused Herr Hm.
  destruct m as [|m]; [lia|].
  assert (Hsleep : sleep (REFRESH_INTERVAL_SECONDS cfg) =
            ([], Raise (if (REFRESH_INTERVAL_SECONDS cfg <? - PyTime_MAX_SECONDS)
                           || (PyTime_MAX_SECONDS <? REFRESH_INTERVAL_SECONDS cfg)
                        then OverflowError else ValueError))).
  { unfold sleep. destruct (_ || _) eqn:E; [reflexivity|].
    apply orb_false_elim in E. destruct E as [E1 E2].
    apply Z.ltb_ge in E1. apply Z.ltb_ge in E2.
    assert (E3 : (REFRESH_INTERVAL_SECONDS cfg <? 0) = true)
      by (apply Z.ltb_lt; lia).
    rewrite E3. reflexivity. }
  unfold main. cbn [main_loop]. unfold main_iteration, time_sleep.
  rewrite Hsleep. unfold cycle_errors_only in Herr.
  destruct (run_once cfg (worlds 0%nat)) as [tr [[]|e]]; simpl in *.
  - reflexivity.
  - rewrite (Herr e eq_refl). simpl. rewrite <- app_assoc. reflexivity.
Qed.

Lemma main_refused_interval_stops_witness :
  main (config_with_interval 10000000000) (fun _ => world_publish_fails) 3 =
    (Log INFO (MsgBotStarting "Active-Investing" "Dashboard" "T3" 10000000000)
     :: trace (run_once (config_with_interval 10000000000) world_publish_fails)
     ++ boundary_events (outcome (run_once (config_with_interval 10000000000)
                                    world_publish_fails))
     ++ [Log INFO (MsgSleeping 10000000000)],
     Terminated OverflowError).
Proof.
  apply (main_refused_interval_stops (config_with_interval 10000000000)
           (fun _ => world_publish_fails) 3).
  - vm_compute. intros [_ H]. apply H. reflexivity.
  - intros e H. vm_compute in H. inversion H. reflexivity.
  - lia.
Defined.

(** ** Normal returns *)

Lemma outcome_bind_inv {A B : Type} (m : M A) (k : A -> M B) (b : B) :
  outcome (bind m k) = Ok b ->
  exists a, outcome m = Ok a /\ outcome (k a) = Ok b.
Proof.
  destruct (outcome m) as [a|e] eqn:E.
  - rewrite (outcome_bind_ok m k a E). eauto.
  - rewrite (outcome_bind_raise m k e E). discriminate.
Qed.

Lemma publish_label_returns (cfg : config) (w : world) (label : string)
    (diff_pct : float) :
  outcome (publish_label cfg w label diff_pct) = Ok tt ->
  ws_update w = Ok tt
  /\ In (SheetUpdate (TARGET_CELL cfg) label)
        (trace (publish_label cfg w label diff_pct)).
Proof.
  unfold publish_label, update_dashboard_cell.
  destruct (ws_acell w) as [v|e]; [|destruct (is_Exception e) eqn:Ee].
  - destruct (ws_update w) as [[]|e']; [|discriminate].
    intros _. split; [reflexivity|]. simpl. tauto.
  - unfold try_except, emit, lift, bind. rewrite Ee.
    destruct (ws_update w) as [[]|e']; [|discriminate].
    intros _. split; [reflexivity|]. simpl. tauto.
  - unfold try_except, emit, lift, bind. rewrite Ee. discriminate.
Qed.

(** X21: a cycle that ends without an error has either fetched no bar, or
    analysed the bars and written the label of the last close to the target
    cell with a successful update: [run_once] does not return normally in
    any other way. *)
Theorem run_once_returns :
  forall cfg w,
    outcome (run_once cfg w) = Ok tt ->
    outcome (fetch_rsp_daily_bars cfg w (ALPACA_SYMBOL cfg) (MA_WINDOW cfg))
    = Ok []
    \/ (exists bars ma last_bar last_price,
           outcome (fetch_rsp_daily_bars cfg w (ALPACA_SYMBOL cfg) (MA_WINDOW cfg))
           = Ok bars
           /\ outcome (compute_moving_average cfg bars (MA_WINDOW cfg)) = Ok ma
           /\ Py.last bars = Ok last_bar
           /\ bar_c last_bar = Some last_price
           /\ ws_update w = Ok tt
           /\ In (SheetUpdate (TARGET_CELL cfg)
                    (label_by_thresholds last_price ma))
                 (trace (run_once cfg w))).
Proof.
  intros cfg w H.
  pose proof H as H'. rewrite run_once_unfold in H'.
  apply outcome_bind_inv in H'. destruct H' as ([] & _ & H').
  apply outcome_bind_inv in H'. destruct H' as ([] & Hclient & H').
  apply outcome_bind_inv in H'. destruct H' as ([] & Hws & H').
  apply outcome_bind_inv in H'. destruct H' as (bars & Hfetch & H').
  destruct bars as [|b bars]; [left; exact Hfetch|right].
  pose proof H' as Ha. unfold analyse_and_publish in Ha.
  apply outcome_bind_inv in Ha. destruct Ha as (ma & Hma & Ha).
  apply outcome_bind_inv in Ha. destruct Ha as (last_bar & Hlast & Ha).
  apply outcome_bind_inv in Ha. destruct Ha as (lp & Hc & Ha).
  apply outcome_bind_inv in Ha. destruct Ha as ([] & _ & Ha).
  apply outcome_bind_inv in Ha. destruct Ha as ([label diff] & Hlabel & Ha).
  assert (Hc' : bar_c last_bar = Some lp).
  { destruct (bar_c last_bar); [|discriminate Hc]. inversion Hc. reflexivity. }
  assert (Hnz : PrimFloat.eqb ma 0 = false).
  { unfold classify_trend, Py.float_div in Hlabel.
    destruct (PrimFloat.eqb ma 0); [discriminate Hlabel|reflexivity]. }
  rewrite (classify_trend_nonzero cfg lp ma Hnz) in Hlabel.
  inversion Hlabel. subst label diff.
  destruct (publish_label_returns cfg w _ _ Ha) as [Hupd Hin].
  exists (b :: bars), ma, last_bar, lp.
  repeat (split; [assumption|]).
  rewrite (run_once_after_fetch cfg w (b :: bars) Hclient Hws Hfetch).
  cbn [trace fst]. apply in_or_app. right.
  apply in_or_app. right. apply in_or_app. right. apply in_or_app. right.
  unfold analyse_and_publish.
  rewrite (trace_bind_ok _ _ ma Hma). apply in_or_app. right.
  rewrite (trace_bind_ok _ _ last_bar Hlast). apply in_or_app. right.
  rewrite (trace_bind_ok _ _ lp Hc). apply in_or_app. right.
  rewrite (trace_bind_ok _ _ tt) by reflexivity. apply in_or_app. right.
  rewrite (classify_trend_nonzero cfg lp ma Hnz).
  rewrite (trace_bind_ok _ _ (label_by_thresholds lp ma, diffPercent lp ma))
    by reflexivity.
  apply in_or_app. right. exact Hin.
Qed.

Lemma run_once_returns_witness :
  let w := world_answering (Some (BarsList unsorted_bars)) in
  outcome (fetch_rsp_daily_bars default_config w "RSP" 960) = Ok []
  \/ (exists bars ma last_bar last_price,
         outcome (fetch_rsp_daily_bars default_config w "RSP" 960) = Ok bars
         /\ outcome (compute_moving_average default_config bars 960) = Ok ma
         /\ Py.last bars = Ok last_bar
         /\ bar_c last_bar = Some last_price
         /\ ws_update w = Ok tt
         /\ In (SheetUpdate "T3" (label_by_thresholds last_price ma))
               (trace (run_once default_config w))).
Proof.
  apply (run_once_returns default_config
           (world_answering (Some (BarsList unsorted_bars)))).
  reflexivity.
Defined.
